(** * WeatherApp: a shallow embedding of [weatherapp.py]

    The program is a PySide6 form with one click handler,
    [WeatherApp.get_weather_info], which reads the API key from the
    environment, picks a unit from the radio buttons, performs one HTTP GET
    ([WeatherApp.get_weather]) and renders the parsed JSON body
    ([WeatherApp.display_weather_info]).

    The embedding keeps Python's dynamic typing: a parsed JSON body is a
    [pyval], every subscript, arithmetic operation and format call can raise,
    and the methods run in a small state-and-exception monad over the widget
    state and the outside world (environment, HTTP server, log of the
    calls made to [requests.get]).  Python floats are IEEE 754 binary64
    numbers, modelled by [spec_float] with the operations of [SpecFloat] at
    precision 53.  What [str] writes for a float, a list or a dict, and the
    digit limit it puts on an [int], belong to the interpreter: the program
    is modelled over any [Runtime] that provides them. *)

From Stdlib Require Import ZArith List String Ascii Bool Lia.
From Stdlib Require Import SpecFloat DecimalString Decimal.
Import ListNotations.
Open Scope string_scope.
Open Scope Z_scope.
Set Warnings "-register-all".

(** ** Binary64 arithmetic *)

Module Float.

Definition float := spec_float.

Definition prec : Z := 53.
Definition emax : Z := 1024.

Definition add : float -> float -> float := SFadd prec emax.
Definition sub : float -> float -> float := SFsub prec emax.
Definition mul : float -> float -> float := SFmul prec emax.
Definition div : float -> float -> float := SFdiv prec emax.

(** Conversion of a Python [int] to the nearest float (ties to even); the
    result is an infinity when the integer is out of range. *)
Definition of_Z (z : Z) : float := binary_normalize prec emax z 0 false.

Definition is_finite (x : float) : bool :=
  match x with
  | S754_zero _ | S754_finite _ _ _ => true
  | S754_infinity _ | S754_nan => false
  end.

(** [bool(x)] for a float: everything but the two zeros is true. *)
Definition is_zero (x : float) : bool :=
  match x with
  | S754_zero _ => true
  | _ => false
  end.

(** The literal [273.15]: the binary64 number nearest to 273.15. *)
Definition lit_273_15 : float := S754_finite false 4805305618032230 (-44).

End Float.

Import Float.

(** ** Decimal rendering of numbers *)

Definition newline : string := String (ascii_of_nat 10) EmptyString.

Definition str_nat (n : N) : string := NilZero.string_of_uint (N.to_uint n).

(** The decimal numeral of an integer: a minus sign when negative, then the
    digits. *)
Definition str_int (z : Z) : string := NilZero.string_of_int (Z.to_int z).

(** Number of decimal digits of an integer, the sign not counted. *)
Definition decimal_digits (z : Z) : N :=
  N.of_nat (String.length (str_nat (Z.abs_N z))).

(** [str] writes an [int] only when its digits are no more than the limit;
    a limit of zero means no limit. *)
Definition within_str_limit (limit : N) (z : Z) : bool :=
  (limit =? 0)%N || (decimal_digits z <=? limit)%N.

Definition digit_char (d : Z) : ascii := ascii_of_nat (48 + Z.to_nat d).

Definition sign_prefix (s : bool) : string := if s then "-" else "".

(** Quotient of [n] by [d] rounded to nearest, ties to even ([0 <= n], [0 < d]). *)
Definition div_half_even (n d : Z) : Z :=
  let q := n / d in
  let r := n mod d in
  match Z.compare (2 * r) d with
  | Lt => q
  | Gt => q + 1
  | Eq => if Z.even q then q else q + 1
  end.

(** The exact value [m * 2^e] as a number of hundredths, correctly rounded. *)
Definition hundredths (m : positive) (e : Z) : Z :=
  match e with
  | Zneg p => div_half_even (Zpos m * 100) (2 ^ Zpos p)
  | _ => Zpos m * 100 * 2 ^ e
  end.

Definition fixed2 (h : Z) : string :=
  str_nat (Z.to_N (h / 100)) ++ "."
    ++ String (digit_char ((h / 10) mod 10)) (String (digit_char (h mod 10)) "").

(** [format(x, ".2f")] for a float [x]: the exact binary value correctly
    rounded to two decimals; the sign is kept even when the digits are all
    zero, and the special values have no digits at all. *)
Definition format_2f (x : float) : string :=
  match x with
  | S754_nan => "nan"
  | S754_infinity s => sign_prefix s ++ "inf"
  | S754_zero s => sign_prefix s ++ "0.00"
  | S754_finite s m e => sign_prefix s ++ fixed2 (hundredths m e)
  end.

(** *** [repr] of a float: the shortest decimal string that reads back as
    the same float *)

Definition pow10 (k : Z) : Z := 10 ^ k.

(** Comparison of the decimal [d * 10^k] with the binary [a * 2^e]. *)
Definition cmp_dec_bin (d k a e : Z) : comparison :=
  Z.compare (d * pow10 (Z.max k 0) * 2 ^ Z.max (- e) 0)
            (a * 2 ^ Z.max e 0 * pow10 (Z.max (- k) 0)).

(** [floor (log10 (m * 2^e))]. *)
Definition floor_log10 (m : positive) (e : Z) : Z :=
  let b := Zpos (digits2_pos m) + e in
  let p0 := ((b - 1) * 30103) / 100000 in
  match cmp_dec_bin 1 (p0 + 1) (Zpos m) e with
  | Gt =>
      match cmp_dec_bin 1 p0 (Zpos m) e with
      | Gt => p0 - 1
      | _ => p0
      end
  | _ => p0 + 1
  end.

(** Does the decimal [d * 10^k] read back as [m * 2^e]?  The rounding
    interval of a float reaches half-way to its two neighbours (the lower
    neighbour is closer at a power of two) and contains its end points when
    the mantissa is even. *)
Definition reads_back (m : positive) (e : Z) (d k : Z) : bool :=
  let a := 4 * Zpos m in
  let lo := if Pos.eqb m (2 ^ 52) && Z.ltb (-1074) e then a - 1 else a - 2 in
  let hi := a + 2 in
  let even := Z.even (Zpos m) in
  match cmp_dec_bin d k lo (e - 2), cmp_dec_bin d k hi (e - 2) with
  | Gt, Lt => true
  | Eq, Lt | Gt, Eq => even
  | _, _ => false
  end.

(** The [n]-digit decimals on either side of [m * 2^e]: the one that reads
    back, and the nearer one (the even one at a tie) when both do. *)
Definition nearest_digits (m : positive) (e : Z) (p : Z) (n : Z) : option (Z * Z) :=
  let k := p - n + 1 in
  let num := Zpos m * 2 ^ Z.max e 0 * pow10 (Z.max (- k) 0) in
  let den := 2 ^ Z.max (- e) 0 * pow10 (Z.max k 0) in
  let below := num / den in
  let above := below + 1 in
  match reads_back m e below k, reads_back m e above k with
  | true, true =>
      Some (match Z.compare (2 * (num mod den)) den with
            | Lt => below
            | Gt => above
            | Eq => if Z.even below then below else above
            end, k)
  | true, false => Some (below, k)
  | false, true => Some (above, k)
  | false, false => None
  end.

Fixpoint shortest_digits (fuel : nat) (m : positive) (e : Z) (p : Z) (n : Z)
  : Z * Z :=
  match fuel with
  | O => (div_half_even (Zpos m * 2 ^ Z.max e 0 * pow10 (Z.max (- (p - 16)) 0))
                        (2 ^ Z.max (- e) 0 * pow10 (Z.max (p - 16) 0)), p - 16)
  | S fuel' =>
      match nearest_digits m e p n with
      | Some dk => dk
      | None => shortest_digits fuel' m e p (n + 1)
      end
  end.

Fixpoint strip_zeros_rev (s : list ascii) : list ascii :=
  match s with
  | c :: s' => if Ascii.eqb c "0" then strip_zeros_rev s' else s
  | [] => []
  end.

Definition strip_trailing_zeros (s : string) : string :=
  string_of_list_ascii
    (List.rev (strip_zeros_rev (List.rev (list_ascii_of_string s)))).

Fixpoint zeros (n : nat) : string :=
  match n with
  | O => ""
  | S n' => String "0" (zeros n')
  end.

(** Layout of [repr]: digits [ds] with the decimal point after [decpt]
    digits; exponent notation outside [-4 < decpt <= 16]. *)
Definition repr_layout (ds : string) (decpt : Z) : string :=
  let n := Z.of_nat (String.length ds) in
  if (decpt <=? -4) || (16 <? decpt) then
    let ex := decpt - 1 in
    let mant :=
      match ds with
      | String c "" => String c ""
      | String c rest => String c ("." ++ rest)
      | "" => ""
      end in
    let exs := str_nat (Z.to_N (Z.abs ex)) in
    mant ++ "e" ++ (if ex <? 0 then "-" else "+")
         ++ (if Z.abs ex <? 10 then "0" else "") ++ exs
  else if decpt <=? 0 then
    "0." ++ zeros (Z.to_nat (- decpt)) ++ ds
  else if decpt <? n then
    substring 0 (Z.to_nat decpt) ds ++ "."
      ++ substring (Z.to_nat decpt) (Z.to_nat (n - decpt)) ds
  else
    ds ++ zeros (Z.to_nat (decpt - n)) ++ ".0".

(** [repr(x)], which is also [str(x)], for a float, as CPython writes it. *)
Definition float_repr (x : float) : string :=
  match x with
  | S754_nan => "nan"
  | S754_infinity s => sign_prefix s ++ "inf"
  | S754_zero s => sign_prefix s ++ "0.0"
  | S754_finite s m e =>
      let '(d, k) := shortest_digits 17 m e (floor_log10 m e) 1 in
      let full := str_nat (Z.to_N d) in
      sign_prefix s
        ++ repr_layout (strip_trailing_zeros full)
                       (k + Z.of_nat (String.length full))
  end.

(** ** Python values and exceptions *)

(** A parsed JSON body.  A Python [str] is represented by its UTF-8
    encoding, a [dict] (whose keys are strings, as JSON's are) by its
    association list, looked up from the front. *)
Inductive pyval : Type :=
| PNone
| PBool (b : bool)
| PInt (z : Z)
| PFloat (x : float)
| PStr (s : string)
| PList (l : list pyval)
| PDict (d : list (string * pyval)).

Inductive exn : Type :=
| RuntimeError (msg : string)
| KeyError (key : pyval)
| IndexError
| TypeError
| ValueError
| OverflowError
| RequestException
| JSONDecodeError.

(** The result of evaluating a Python expression. *)
Inductive outcome (A : Type) : Type :=
| Return (a : A)
| Raise (e : exn).

Arguments Return {A} a.
Arguments Raise {A} e.

Definition obind {A B : Type} (m : outcome A) (k : A -> outcome B) : outcome B :=
  match m with
  | Return a => k a
  | Raise e => Raise e
  end.

Notation "'let*' x ':=' m 'in' k" := (obind m (fun x => k))
  (at level 10, x name, m at level 100, k at level 200).

Definition raised {A : Type} (m : outcome A) : bool :=
  match m with
  | Return _ => false
  | Raise _ => true
  end.

(** *** Truth value, membership and subscripts *)

(** [bool(v)]. *)
Definition truthy (v : pyval) : bool :=
  match v with
  | PNone => false
  | PBool b => b
  | PInt z => negb (z =? 0)
  | PFloat x => negb (is_zero x)
  | PStr s => negb (String.eqb s "")
  | PList l => match l with [] => false | _ => true end
  | PDict d => match d with [] => false | _ => true end
  end.

Fixpoint lookup (key : string) (d : list (string * pyval)) : option pyval :=
  match d with
  | [] => None
  | (k, v) :: d' => if String.eqb k key then Some v else lookup key d'
  end.

Fixpoint is_substring (needle hay : string) : bool :=
  if prefix needle hay then true
  else
    match hay with
    | EmptyString => false
    | String _ hay' => is_substring needle hay'
    end.

Definition is_str (key : string) (v : pyval) : bool :=
  match v with
  | PStr s => String.eqb s key
  | _ => false
  end.

(** [key in v] for a string [key]: key membership in a dict, element
    membership in a list, substring test in a str, [TypeError] elsewhere. *)
Definition contains (key : string) (v : pyval) : outcome bool :=
  match v with
  | PDict d => Return (match lookup key d with Some _ => true | None => false end)
  | PList l => Return (existsb (is_str key) l)
  | PStr s => Return (is_substring key s)
  | PNone | PBool _ | PInt _ | PFloat _ => Raise TypeError
  end.

(** [v[key]] for a string [key]. *)
Definition getitem (v : pyval) (key : string) : outcome pyval :=
  match v with
  | PDict d =>
      match lookup key d with
      | Some x => Return x
      | None => Raise (KeyError (PStr key))
      end
  | _ => Raise TypeError
  end.

(** Number of bytes of the UTF-8 sequence that starts with [c]. *)
Definition utf8_width (c : ascii) : nat :=
  let n := nat_of_ascii c in
  if Nat.ltb n 192 then 1
  else if Nat.ltb n 224 then 2
  else if Nat.ltb n 240 then 3
  else 4.

(** [v[0]]. *)
Definition getitem0 (v : pyval) : outcome pyval :=
  match v with
  | PList l =>
      match l with
      | x :: _ => Return x
      | [] => Raise IndexError
      end
  | PStr s =>
      match s with
      | String c _ => Return (PStr (substring 0 (utf8_width c) s))
      | EmptyString => Raise IndexError
      end
  | PDict _ => Raise (KeyError (PInt 0))
  | PNone | PBool _ | PInt _ | PFloat _ => Raise TypeError
  end.

(** *** Numbers *)

(** [float(z)] for an [int]: [OverflowError] when out of range. *)
Definition float_of_int (z : Z) : outcome float :=
  let x := of_Z z in
  if is_finite x then Return x else Raise OverflowError.

(** The float a value stands for as an operand of float arithmetic or of a
    float format ([bool] is a subclass of [int]). *)
Definition as_number (v : pyval) (otherwise : exn) : outcome float :=
  match v with
  | PFloat x => Return x
  | PInt z => float_of_int z
  | PBool b => Return (of_Z (if b then 1 else 0))
  | PNone | PStr _ | PList _ | PDict _ => Raise otherwise
  end.

(** [v - 273.15]. *)
Definition minus_273_15 (v : pyval) : outcome float :=
  let* x := as_number v TypeError in
  Return (sub x lit_273_15).

(** [format(v, ".2f")]. *)
Definition format_spec_2f (v : pyval) : outcome string :=
  match v with
  | PStr _ => Raise ValueError
  | _ => let* x := as_number v TypeError in Return (format_2f x)
  end.

(** ** The widget, the outside world and the method monad *)

(** The attributes of [self] that the click handler reads or writes. *)
Record WeatherApp : Type := {
  location_entry : string;   (* text of the QLineEdit *)
  info_label : string;       (* text of the QLabel *)
  c_button : bool;           (* isChecked() of each QRadioButton *)
  f_button : bool;
  k_button : bool
}.

(** What [requests.get(url)] is called with: the caller gives a URL and
    nothing else. *)
Record request : Type := {
  req_verb : string;
  req_url : string;
  req_headers : list (string * string);
  req_body : option string
}.

(** What comes back from the network: no response at all, or a response
    whose body is JSON ([Some]) or is not ([None]). *)
Inductive reply : Type :=
| NoResponse
| Response (json : option pyval).

(** The environment variables, the server (its answer may depend on how many
    requests came before) and the log of the calls made to [requests.get] so
    far, each with the arguments the program gave. *)
Record World : Type := {
  environ : string -> option string;
  server : nat -> string -> reply;
  sent : list request
}.

Record state : Type := {
  self : WeatherApp;
  world : World
}.

Definition method (A : Type) : Type := state -> outcome A * state.

Definition ret {A : Type} (a : A) : method A := fun st => (Return a, st).

Definition raise {A : Type} (e : exn) : method A := fun st => (Raise e, st).

Definition bind {A B : Type} (m : method A) (k : A -> method B) : method B :=
  fun st =>
    match m st with
    | (Return a, st') => k a st'
    | (Raise e, st') => (Raise e, st')
    end.

Definition lift {A : Type} (m : outcome A) : method A := fun st => (m, st).

Notation "x <- m ;; k" := (bind m (fun x => k))
  (at level 61, m at next level, right associativity).
Notation "m ;;; k" := (bind m (fun _ => k))
  (at level 61, right associativity).

(** [os.getenv(name)]. *)
Definition getenv (name : string) : method (option string) :=
  fun st => (Return (environ (world st) name), st).

(** [self.location_entry.text()]. *)
Definition location_entry_text : method string :=
  fun st => (Return (location_entry (self st)), st).

Definition c_button_isChecked : method bool :=
  fun st => (Return (c_button (self st)), st).

Definition f_button_isChecked : method bool :=
  fun st => (Return (f_button (self st)), st).

(** [self.info_label.setText(text)]. *)
Definition info_label_setText (text : string) : method unit :=
  fun st =>
    let w := self st in
    (Return tt,
     {| self := {| location_entry := location_entry w;
                   info_label := text;
                   c_button := c_button w;
                   f_button := f_button w;
                   k_button := k_button w |};
        world := world st |}).

(** [requests.get(url)]: the call is logged with its arguments, then the
    server answers or the call raises.  What the library does to the URL
    before it goes out is not part of the program. *)
Definition requests_get (url : string) : method (option pyval) :=
  fun st =>
    let w := world st in
    let st' :=
      {| self := self st;
         world := {| environ := environ w;
                     server := server w;
                     sent := (sent w ++ [ {| req_verb := "GET";
                                             req_url := url;
                                             req_headers := [];
                                             req_body := None |} ])%list |} |} in
    match server w (List.length (sent w)) url with
    | NoResponse => (Raise RequestException, st')
    | Response json => (Return json, st')
    end.

(** [response.json()]. *)
Definition response_json (response : option pyval) : method pyval :=
  match response with
  | Some data => ret data
  | None => raise JSONDecodeError
  end.

(** Number of network calls made so far. *)
Definition network_calls (st : state) : nat := List.length (sent (world st)).

(** ** The Python runtime *)

(** What the interpreter decides and the program does not: [str] of a
    float, [str] of a list or a dict (which can raise), and the greatest
    number of digits [str] will write for an [int]
    ([sys.get_int_max_str_digits()]: 4300 by default, 0 for no limit). *)
Record Runtime : Type := {
  str_float : float -> string;
  str_container : pyval -> outcome string;
  max_str_digits : N
}.

(** ** The program *)

Definition failure_text : string :=
  "Failed to fetch weather data. Please check the location and try again.".

(** The local variables of [display_weather_info]. *)
Record locals : Type := {
  location : pyval;
  weather_description : pyval;
  temperature : pyval;
  feels_like : pyval;
  temp_min : pyval;
  temp_max : pyval;
  humidity : pyval;
  wind_speed : pyval
}.

Section Program.

Variable rt : Runtime.

(** [format(v, "")], that is [str(v)]: [ValueError] for an [int] with more
    digits than the limit. *)
Definition py_str (v : pyval) : outcome string :=
  match v with
  | PNone => Return "None"
  | PBool b => Return (if b then "True" else "False")
  | PInt z =>
      if within_str_limit (max_str_digits rt) z then Return (str_int z)
      else Raise ValueError
  | PFloat x => Return (str_float rt x)
  | PStr s => Return s
  | PList _ | PDict _ => str_container rt v
  end.

(** Lines 130-137: the eight subscript chains, in order. *)
Definition read_locals (data : pyval) : outcome locals :=
  let* location := getitem data "name" in
  let* weather_description :=
    (let* w := getitem data "weather" in
     let* w0 := getitem0 w in
     getitem w0 "description") in
  let* temperature := (let* m := getitem data "main" in getitem m "temp") in
  let* feels_like := (let* m := getitem data "main" in getitem m "feels_like") in
  let* temp_min := (let* m := getitem data "main" in getitem m "temp_min") in
  let* temp_max := (let* m := getitem data "main" in getitem m "temp_max") in
  let* humidity := (let* m := getitem data "main" in getitem m "humidity") in
  let* wind_speed := (let* w := getitem data "wind" in getitem w "speed") in
  Return {| location := location;
            weather_description := weather_description;
            temperature := temperature;
            feels_like := feels_like;
            temp_min := temp_min;
            temp_max := temp_max;
            humidity := humidity;
            wind_speed := wind_speed |}.

Definition set_temperatures (l : locals) (t fl mn mx : float) : locals :=
  {| location := location l;
     weather_description := weather_description l;
     temperature := PFloat t;
     feels_like := PFloat fl;
     temp_min := PFloat mn;
     temp_max := PFloat mx;
     humidity := humidity l;
     wind_speed := wind_speed l |}.

(** Lines 139-152: the four temperatures are reassigned in place and the
    unit label is chosen.  In [x * 9/5 + 32] the integer literals are
    converted to floats and the operations associate to the left. *)
Definition convert (l : locals) (unit : string) : outcome (locals * string) :=
  if String.eqb unit "C" then
    let* t := minus_273_15 (temperature l) in
    let* fl := minus_273_15 (feels_like l) in
    let* mn := minus_273_15 (temp_min l) in
    let* mx := minus_273_15 (temp_max l) in
    Return (set_temperatures l t fl mn mx, "°C")
  else if String.eqb unit "F" then
    let* t := (let* d := minus_273_15 (temperature l) in
               Return (add (div (mul d (of_Z 9)) (of_Z 5)) (of_Z 32))) in
    let* fl := (let* d := minus_273_15 (feels_like l) in
                Return (add (div (mul d (of_Z 9)) (of_Z 5)) (of_Z 32))) in
    let* mn := (let* d := minus_273_15 (temp_min l) in
                Return (add (div (mul d (of_Z 9)) (of_Z 5)) (of_Z 32))) in
    let* mx := (let* d := minus_273_15 (temp_max l) in
                Return (add (div (mul d (of_Z 9)) (of_Z 5)) (of_Z 32))) in
    Return (set_temperatures l t fl mn mx, "°F")
  else
    Return (l, "K").

(** Lines 154-164: the f-string, its fields formatted from left to right. *)
Definition render (l : locals) (unit_label : string) : outcome string :=
  let* s_location := py_str (location l) in
  let* s_description := py_str (weather_description l) in
  let* s_temperature := format_spec_2f (temperature l) in
  let* s_feels_like := format_spec_2f (feels_like l) in
  let* s_temp_min := format_spec_2f (temp_min l) in
  let* s_temp_max := format_spec_2f (temp_max l) in
  let* s_humidity := py_str (humidity l) in
  let* s_wind_speed := py_str (wind_speed l) in
  Return ("Weather Information:" ++ newline
          ++ "Location: " ++ s_location ++ newline
          ++ "Weather: " ++ s_description ++ newline
          ++ "Temperature: " ++ s_temperature ++ " " ++ unit_label ++ newline
          ++ "Feels Like: " ++ s_feels_like ++ " " ++ unit_label ++ newline
          ++ "Min Temperature: " ++ s_temp_min ++ " " ++ unit_label ++ newline
          ++ "Max Temperature: " ++ s_temp_max ++ " " ++ unit_label ++ newline
          ++ "Humidity: " ++ s_humidity ++ "%" ++ newline
          ++ "Wind Speed: " ++ s_wind_speed ++ " m/s").

(** [WeatherApp.display_weather_info] as an expression of its two
    arguments. *)
Definition format_weather (data : pyval) (unit : string) : outcome string :=
  let* l := read_locals data in
  let* lu := convert l unit in
  render (fst lu) (snd lu).

(** [WeatherApp.display_weather_info(self, data, unit)]. *)
Definition display_weather_info (data : pyval) (unit : string) : method string :=
  lift (format_weather data unit).

(** The f-string of line 114. *)
Definition request_url (api_key location : string) : string :=
  "https://api.openweathermap.org/data/2.5/weather?q=" ++ location
    ++ "&appid=" ++ api_key.

(** [WeatherApp.get_weather(self, api_key, location)]. *)
Definition get_weather (api_key location : string) : method pyval :=
  let url := request_url api_key location in
  response <- requests_get url ;;
  data <- response_json response ;;
  ret data.

(** [not api_key] for the result of [os.getenv]. *)
Definition not_set (api_key : option string) : bool :=
  match api_key with
  | None => true
  | Some k => String.eqb k ""
  end.

(** [weather_data and "name" in weather_data], as the [if] reads it. *)
Definition valid_response (weather_data : pyval) : outcome bool :=
  if truthy weather_data then contains "name" weather_data else Return false.

(** [WeatherApp.get_weather_info(self)], the slot of the button. *)
Definition get_weather_info : method unit :=
  api_key <- getenv "OPENWEATHER_API_KEY" ;;
  if not_set api_key then raise (RuntimeError "OPENWEATHER_API_KEY is not set")
  else
    let api_key := match api_key with Some k => k | None => "" end in
    location <- location_entry_text ;;
    c <- c_button_isChecked ;;
    f <- f_button_isChecked ;;
    let unit := if c then "C" else if f then "F" else "K" in
    weather_data <- get_weather api_key location ;;
    ok <- lift (valid_response weather_data) ;;
    if ok then
      info <- display_weather_info weather_data unit ;;
      info_label_setText info
    else
      info_label_setText failure_text.

End Program.

(** ** The specification's vocabulary *)

(** UnitSelection, and the unit string the handler derives from the radio
    buttons for each. *)
Inductive UnitSelection : Type := Celsius | Fahrenheit | Kelvin.

Definition unit_code (u : UnitSelection) : string :=
  match u with
  | Celsius => "C"
  | Fahrenheit => "F"
  | Kelvin => "K"
  end.

Definition unit_label (u : UnitSelection) : string :=
  match u with
  | Celsius => "°C"
  | Fahrenheit => "°F"
  | Kelvin => "K"
  end.

(** WeatherReading: the typed view of a response.  The temperatures and the
    wind speed are floats and the humidity is an integer, as the
    specification types them. *)
Record WeatherReading : Type := {
  locationName : string;
  description : string;
  temperatureKelvin : float;
  feelsLikeKelvin : float;
  minTemperatureKelvin : float;
  maxTemperatureKelvin : float;
  humidityPercent : Z;
  windSpeedMetersPerSecond : float
}.

Definition omap {A B : Type} (m : option A) (k : A -> option B) : option B :=
  match m with
  | Some a => k a
  | None => None
  end.

Definition field (key : string) (v : pyval) : option pyval :=
  match v with
  | PDict d => lookup key d
  | _ => None
  end.

Definition first_item (v : pyval) : option pyval :=
  match v with
  | PList (x :: _) => Some x
  | _ => None
  end.

Definition str_field (key : string) (v : pyval) : option string :=
  match field key v with
  | Some (PStr s) => Some s
  | _ => None
  end.

Definition float_field (key : string) (v : pyval) : option float :=
  match field key v with
  | Some (PFloat x) => Some x
  | _ => None
  end.

Definition int_field (key : string) (v : pyval) : option Z :=
  match field key v with
  | Some (PInt z) => Some z
  | _ => None
  end.

(** The response contract: [name], [weather[0].description], the five
    fields of [main] and [wind.speed], each of its documented type. *)
Definition reading_of (data : pyval) : option WeatherReading :=
  omap (str_field "name" data) (fun name =>
  omap (field "weather" data) (fun w =>
  omap (first_item w) (fun w0 =>
  omap (str_field "description" w0) (fun desc =>
  omap (field "main" data) (fun m =>
  omap (float_field "temp" m) (fun t =>
  omap (float_field "feels_like" m) (fun fl =>
  omap (float_field "temp_min" m) (fun mn =>
  omap (float_field "temp_max" m) (fun mx =>
  omap (int_field "humidity" m) (fun h =>
  omap (field "wind" data) (fun wd =>
  omap (float_field "speed" wd) (fun ws =>
  Some {| locationName := name;
          description := desc;
          temperatureKelvin := t;
          feelsLikeKelvin := fl;
          minTemperatureKelvin := mn;
          maxTemperatureKelvin := mx;
          humidityPercent := h;
          windSpeedMetersPerSecond := ws |})))))))))))).


(** The conversion rules of the Presenter, following the specification:
    Celsius [value - 273.15], Fahrenheit [(value - 273.15) * 9/5 + 32],
    Kelvin unchanged. *)
Definition spec_convert (u : UnitSelection) (value : float) : float :=
  match u with
  | Celsius => sub value lit_273_15
  | Fahrenheit => add (div (mul (sub value lit_273_15) (of_Z 9)) (of_Z 5)) (of_Z 32)
  | Kelvin => value
  end.

Fixpoint join_lines (ls : list string) : string :=
  match ls with
  | [] => ""
  | [l] => l
  | l :: ls' => l ++ newline ++ join_lines ls'
  end.

(** The rendered text template of the specification, one entry per line. *)
Definition template_lines
  (name desc temp feels tmin tmax hum speed label : string) : list string :=
  [ "Weather Information:";
    "Location: " ++ name;
    "Weather: " ++ desc;
    "Temperature: " ++ temp ++ " " ++ label;
    "Feels Like: " ++ feels ++ " " ++ label;
    "Min Temperature: " ++ tmin ++ " " ++ label;
    "Max Temperature: " ++ tmax ++ " " ++ label;
    "Humidity: " ++ hum ++ "%";
    "Wind Speed: " ++ speed ++ " m/s" ].

(** The text the specification expects for a reading under a unit, the
    wind speed written as the runtime's [str] writes a float. *)
Definition expected_text
  (rt : Runtime) (r : WeatherReading) (u : UnitSelection) : string :=
  join_lines
    (template_lines
       (locationName r) (description r)
       (format_2f (spec_convert u (temperatureKelvin r)))
       (format_2f (spec_convert u (feelsLikeKelvin r)))
       (format_2f (spec_convert u (minTemperatureKelvin r)))
       (format_2f (spec_convert u (maxTemperatureKelvin r)))
       (str_int (humidityPercent r))
       (str_float rt (windSpeedMetersPerSecond r))
       (unit_label u)).

(** Number of lines of a text. *)
Fixpoint line_count (s : string) : nat :=
  match s with
  | EmptyString => 1
  | String c s' =>
      if Ascii.eqb c (ascii_of_nat 10) then S (line_count s') else line_count s'
  end.

Definition is_digit (c : ascii) : bool :=
  let n := nat_of_ascii c in Nat.leb 48 n && Nat.leb n 57.

Fixpoint all_digits (s : string) : bool :=
  match s with
  | EmptyString => true
  | String c s' => is_digit c && all_digits s'
  end.

(** Digits, a point and exactly two digits. *)
Fixpoint digits_point_two (s : string) : bool :=
  match s with
  | EmptyString => false
  | String c s' =>
      if is_digit c then digits_point_two s'
      else Ascii.eqb c "."
           && match s' with
              | String a (String b EmptyString) => is_digit a && is_digit b
              | _ => false
              end
  end.

Definition unsigned (s : string) : string :=
  match s with
  | String c s' => if Ascii.eqb c "-" then s' else s
  | EmptyString => s
  end.

(** A decimal numeral with exactly two decimal places: an optional sign, at
    least one digit, a point, two digits. *)
Definition two_decimals (s : string) : bool :=
  match unsigned s with
  | String c _ => is_digit c && digits_point_two (unsigned s)
  | EmptyString => false
  end.

(** An integer numeral: an optional sign and at least one digit. *)
Definition integer_numeral (s : string) : bool :=
  match unsigned s with
  | String _ _ => all_digits (unsigned s)
  | EmptyString => false
  end.

(** Percent-encoding of a query component, as the specification's
    [<url-encoded location>] requires: every byte but the unreserved ones
    (letters, digits, [-], [_], [.], [~]) becomes [%XX]. *)
Definition is_unreserved (c : ascii) : bool :=
  let n := nat_of_ascii c in
  (Nat.leb 48 n && Nat.leb n 57) || (Nat.leb 65 n && Nat.leb n 90)
  || (Nat.leb 97 n && Nat.leb n 122)
  || Ascii.eqb c "-" || Ascii.eqb c "_" || Ascii.eqb c "." || Ascii.eqb c "~".

Definition hex_digit (n : nat) : ascii :=
  if Nat.ltb n 10 then ascii_of_nat (48 + n) else ascii_of_nat (55 + n).

Fixpoint spec_url_encode (s : string) : string :=
  match s with
  | EmptyString => EmptyString
  | String c s' =>
      if is_unreserved c then String c (spec_url_encode s')
      else
        let n := nat_of_ascii c in
        String "%" (String (hex_digit (Nat.div n 16))
                      (String (hex_digit (Nat.modulo n 16)) (spec_url_encode s')))
  end.

(** The request URL the specification describes. *)
Definition spec_request_url (api_key location : string) : string :=
  "https://api.openweathermap.org/data/2.5/weather?q=" ++ spec_url_encode location
    ++ "&appid=" ++ api_key.

(** ** Concrete data for the runs below *)

(** The successful response of the specification's examples. *)
Definition london : pyval :=
  PDict [("name", PStr "London");
         ("weather", PList [PDict [("description", PStr "clear sky")]]);
         ("main", PDict [("temp", PFloat (of_Z 280));
                         ("feels_like", PFloat (of_Z 279));
                         ("temp_min", PFloat (of_Z 278));
                         ("temp_max", PFloat (of_Z 282));
                         ("humidity", PInt 60)]);
         ("wind", PDict [("speed", PFloat (div (of_Z 35) (of_Z 10)))])].

(** The body of a 404 response. *)
Definition not_found : pyval :=
  PDict [("cod", PStr "404"); ("message", PStr "city not found")].

(** [str] of containers for runs in which no list or dict is displayed. *)
Definition no_container_shown (v : pyval) : outcome string := Return "".

(** The runtime of the runs below: floats written by [float_repr] and the
    default limit of 4300 digits. *)
Definition sample_runtime : Runtime :=
  {| str_float := float_repr;
     str_container := no_container_shown;
     max_str_digits := 4300 |}.

Definition form (loc : string) (c f k : bool) : WeatherApp :=
  {| location_entry := loc; info_label := ""; c_button := c; f_button := f;
     k_button := k |}.

Definition env_with_key (key : string) (name : string) : option string :=
  if String.eqb name "OPENWEATHER_API_KEY" then Some key else None.

Definition env_without_key (name : string) : option string := None.

(** A fresh window in a world whose server always gives the same answer. *)
Definition start (w : WeatherApp) (env : string -> option string) (r : reply) : state :=
  {| self := w;
     world := {| environ := env; server := fun _ _ => r; sent := [] |} |}.

(** The local variables after lines 130-137 when the response holds [r]. *)
Definition locals_of_reading (r : WeatherReading) : locals :=
  {| location := PStr (locationName r);
     weather_description := PStr (description r);
     temperature := PFloat (temperatureKelvin r);
     feels_like := PFloat (feelsLikeKelvin r);
     temp_min := PFloat (minTemperatureKelvin r);
     temp_max := PFloat (maxTemperatureKelvin r);
     humidity := PInt (humidityPercent r);
     wind_speed := PFloat (windSpeedMetersPerSecond r) |}.

(** The unit string the handler derives from the radio buttons (lines
    90-94): the Celsius button is asked first, the Kelvin button never. *)
Definition selected_unit (w : WeatherApp) : string :=
  if c_button w then "C" else if f_button w then "F" else "K".

(** The state once one more request for [url] is in the log. *)
Definition logged (url : string) (st : state) : state :=
  {| self := self st;
     world := {| environ := environ (world st);
                 server := server (world st);
                 sent := (sent (world st)
                          ++ [ {| req_verb := "GET"; req_url := url;
                                  req_headers := []; req_body := None |} ])%list |} |}.

(** The state once the label shows [text]. *)
Definition with_label (text : string) (st : state) : state :=
  {| self := {| location_entry := location_entry (self st);
                info_label := text;
                c_button := c_button (self st);
                f_button := f_button (self st);
                k_button := k_button (self st) |};
     world := world st |}.

(** A JSON body the guard of line 97 rejects without raising: an empty or
    null value, or an object without the key [name]. *)
Definition lacks_name (data : pyval) : bool :=
  negb (truthy data)
  || match data with
     | PDict d => match lookup "name" d with Some _ => false | None => true end
     | _ => false
     end.

(** The example response with its temperature at the freezing point. *)
Definition freezing : pyval :=
  PDict [("name", PStr "London");
         ("weather", PList [PDict [("description", PStr "clear sky")]]);
         ("main", PDict [("temp", PFloat lit_273_15);
                         ("feels_like", PFloat lit_273_15);
                         ("temp_min", PFloat lit_273_15);
                         ("temp_max", PFloat lit_273_15);
                         ("humidity", PInt 60)]);
         ("wind", PDict [("speed", PFloat (div (of_Z 35) (of_Z 10)))])].

(** The example response with a very large, finite temperature. *)
Definition scorching : pyval :=
  PDict [("name", PStr "London");
         ("weather", PList [PDict [("description", PStr "clear sky")]]);
         ("main", PDict [("temp", PFloat (of_Z (10 ^ 308)));
                         ("feels_like", PFloat (of_Z 279));
                         ("temp_min", PFloat (of_Z 278));
                         ("temp_max", PFloat (of_Z 282));
                         ("humidity", PInt 60)]);
         ("wind", PDict [("speed", PFloat (div (of_Z 35) (of_Z 10)))])].

(** A response that has a [name] and nothing else. *)
Definition name_only : pyval := PDict [("name", PStr "London")].

(** The typed view of [london]. *)
Definition london_reading : WeatherReading :=
  {| locationName := "London";
     description := "clear sky";
     temperatureKelvin := of_Z 280;
     feelsLikeKelvin := of_Z 279;
     minTemperatureKelvin := of_Z 278;
     maxTemperatureKelvin := of_Z 282;
     humidityPercent := 60;
     windSpeedMetersPerSecond := div (of_Z 35) (of_Z 10) |}.

(** The typed view of [freezing]. *)
Definition freezing_reading : WeatherReading :=
  {| locationName := "London";
     description := "clear sky";
     temperatureKelvin := lit_273_15;
     feelsLikeKelvin := lit_273_15;
     minTemperatureKelvin := lit_273_15;
     maxTemperatureKelvin := lit_273_15;
     humidityPercent := 60;
     windSpeedMetersPerSecond := div (of_Z 35) (of_Z 10) |}.

(** The typed view of [scorching]. *)
Definition scorching_reading : WeatherReading :=
  {| locationName := "London";
     description := "clear sky";
     temperatureKelvin := of_Z (10 ^ 308);
     feelsLikeKelvin := of_Z 279;
     minTemperatureKelvin := of_Z 278;
     maxTemperatureKelvin := of_Z 282;
     humidityPercent := 60;
     windSpeedMetersPerSecond := div (of_Z 35) (of_Z 10) |}.

(** Fresh windows with no button checked, by what the world holds. *)
Definition st_london : state :=
  start (form "London" false false false) (env_with_key "KEY") (Response (Some london)).

Definition st_not_found : state :=
  start (form "Atlantis" false false false) (env_with_key "KEY")
        (Response (Some not_found)).

Definition st_offline : state :=
  start (form "London" false false false) (env_with_key "KEY") NoResponse.

Definition st_not_json : state :=
  start (form "London" false false false) (env_with_key "KEY") (Response None).

Definition st_no_key : state :=
  start (form "London" false false false) env_without_key (Response (Some london)).

Definition st_name_only : state :=
  start (form "London" false false false) (env_with_key "KEY")
        (Response (Some name_only)).

(** ** Further vocabulary for the whole click *)

(** Lines 42-50 of [init_ui]: the line edit and the label start empty and no
    radio button is checked. *)
Definition init_ui : WeatherApp :=
  {| location_entry := "";
     info_label := "";
     c_button := false;
     f_button := false;
     k_button := false |}.

(** The unit selection the handler acts on, as a [UnitSelection]. *)
Definition unit_of_buttons (w : WeatherApp) : UnitSelection :=
  if c_button w then Celsius else if f_button w then Fahrenheit else Kelvin.

(** Lines 139-164 of [display_weather_info], from the local variables on. *)
Definition convert_and_render
  (rt : Runtime) (l : locals) (unit : string) : outcome string :=
  let* lu := convert l unit in
  render rt (fst lu) (snd lu).

(** The local variables with other values for the four temperatures. *)
Definition with_temperatures (l : locals) (t fl mn mx : pyval) : locals :=
  {| location := location l;
     weather_description := weather_description l;
     temperature := t;
     feels_like := fl;
     temp_min := mn;
     temp_max := mx;
     humidity := humidity l;
     wind_speed := wind_speed l |}.

(** The top-level keys [display_weather_info] subscripts the response with. *)
Definition consumed_keys : list string := ["name"; "weather"; "main"; "wind"].

Fixpoint all_unreserved (s : string) : bool :=
  match s with
  | EmptyString => true
  | String c s' => is_unreserved c && all_unreserved s'
  end.

(** A text without a line break. *)
Fixpoint one_line (s : string) : bool :=
  match s with
  | EmptyString => true
  | String c s' => negb (Ascii.eqb c (ascii_of_nat 10)) && one_line s'
  end.

(** The example response with more keys at the top and another order. *)
Definition london_verbose : pyval :=
  PDict [("coord", PDict [("lon", PFloat (of_Z 0)); ("lat", PFloat (of_Z 51))]);
         ("wind", PDict [("speed", PFloat (div (of_Z 35) (of_Z 10)))]);
         ("cod", PInt 200);
         ("main", PDict [("temp", PFloat (of_Z 280));
                         ("feels_like", PFloat (of_Z 279));
                         ("temp_min", PFloat (of_Z 278));
                         ("temp_max", PFloat (of_Z 282));
                         ("humidity", PInt 60)]);
         ("weather", PList [PDict [("description", PStr "clear sky")]]);
         ("id", PInt 2643743);
         ("name", PStr "London")].

(** A world with the key set, nothing sent yet, and London for an answer. *)
Definition world_london : World :=
  {| environ := env_with_key "KEY";
     server := fun _ _ => Response (Some london);
     sent := [] |}.

(** The example response with whole-number temperatures, which JSON parses
    to [int]. *)
Definition london_whole : locals :=
  with_temperatures (locals_of_reading london_reading)
    (PInt 280) (PInt 279) (PInt 278) (PInt 282).

(** The example response with its temperature sent as a string. *)
Definition london_quoted : locals :=
  with_temperatures (locals_of_reading london_reading)
    (PStr "280.0") (PFloat (of_Z 279)) (PFloat (of_Z 278)) (PFloat (of_Z 282)).

(** Windows with a button checked, or with something already on show. *)
Definition st_london_celsius : state :=
  start (form "London" true false false) (env_with_key "KEY") (Response (Some london)).

Definition st_london_stale : state :=
  {| self := {| location_entry := "London";
                info_label := failure_text;
                c_button := true;
                f_button := false;
                k_button := true |};
     world := {| environ := env_with_key "KEY";
                 server := fun _ _ => Response (Some london);
                 sent := [ {| req_verb := "GET"; req_url := "earlier";
                              req_headers := []; req_body := None |} ] |} |}.

(** A body that is a bare JSON number. *)
Definition st_number : state :=
  start (form "London" false false false) (env_with_key "KEY")
        (Response (Some (PInt 5))).

(** A server that has nothing for the first request and London afterwards. *)
Definition st_second_time_lucky : state :=
  {| self := form "London" false true false;
     world := {| environ := env_with_key "KEY";
                 server := fun n _ =>
                             match n with
                             | O => Response (Some not_found)
                             | S _ => Response (Some london)
                             end;
                 sent := [] |} |}.

(** Number of line breaks in a text. *)
Fixpoint breaks (s : string) : nat :=
  match s with
  | EmptyString => 0
  | String c s' =>
      if Ascii.eqb c (ascii_of_nat 10) then S (breaks s') else breaks s'
  end.

(** The example reading with a line break in the name of the place. *)
Definition two_line_name : WeatherReading :=
  {| locationName := "London" ++ newline ++ "Humidity: 0%";
     description := "clear sky";
     temperatureKelvin := of_Z 280;
     feelsLikeKelvin := of_Z 279;
     minTemperatureKelvin := of_Z 278;
     maxTemperatureKelvin := of_Z 282;
     humidityPercent := 60;
     windSpeedMetersPerSecond := div (of_Z 35) (of_Z 10) |}.

(** * Properties *)

(** ** The float model on known values *)

(** The literal is the correctly rounded quotient of 27315 by 100. *)
Lemma lit_273_15_nearest : lit_273_15 = div (of_Z 27315) (of_Z 100).
Proof. vm_compute. reflexivity. Qed.

Example repr_one_tenth : float_repr (div (of_Z 1) (of_Z 10)) = "0.1".
Proof. vm_compute. reflexivity. Qed.

Example repr_celsius_of_280 :
  float_repr (sub (of_Z 280) lit_273_15) = "6.850000000000023".
Proof. vm_compute. reflexivity. Qed.

Example repr_large : float_repr (of_Z (10 ^ 16)) = "1e+16".
Proof. vm_compute. reflexivity. Qed.

Example repr_whole : float_repr (of_Z 280) = "280.0".
Proof. vm_compute. reflexivity. Qed.

(** 2.675 is stored just below the half-way point, 0.125 exactly at it. *)
Example format_2f_below_half : format_2f (div (of_Z 2675) (of_Z 1000)) = "2.67".
Proof. vm_compute. reflexivity. Qed.

Example format_2f_tie_to_even : format_2f (div (of_Z 125) (of_Z 1000)) = "0.12".
Proof. vm_compute. reflexivity. Qed.

Example format_2f_negative_zero :
  format_2f (div (of_Z (-1)) (of_Z 1000)) = "-0.00".
Proof. vm_compute. reflexivity. Qed.

(** ** Strings and numerals *)

Lemma append_assoc (a b c : string) : (a ++ b) ++ c = a ++ (b ++ c).
Proof.
  induction a as [|x a IH]; simpl; [reflexivity | now rewrite IH].
Qed.

Lemma is_digit_not_minus (c : ascii) : is_digit c = true -> Ascii.eqb c "-" = false.
Proof.
  intro H. destruct (Ascii.eqb_spec c "-") as [->|]; [discriminate H | reflexivity].
Qed.

Lemma digit_char_is_digit (d : Z) : 0 <= d < 10 -> is_digit (digit_char d) = true.
Proof.
  intro H.
  assert (d = 0 \/ d = 1 \/ d = 2 \/ d = 3 \/ d = 4 \/ d = 5 \/ d = 6 \/ d = 7
          \/ d = 8 \/ d = 9) as Hd by lia.
  repeat (destruct Hd as [-> | Hd]; [reflexivity |]). now subst.
Qed.

Lemma uint_digits (d : uint) : all_digits (NilEmpty.string_of_uint d) = true.
Proof.
  induction d; simpl; auto.
Qed.

Lemma str_uint_digits (d : uint) : all_digits (NilZero.string_of_uint d) = true.
Proof.
  destruct d; try reflexivity; apply (uint_digits (_ _)).
Qed.

Lemma str_uint_nonempty (d : uint) : NilZero.string_of_uint d <> "".
Proof.
  destruct d; discriminate.
Qed.

Lemma str_nat_digits (n : N) : all_digits (str_nat n) = true.
Proof.
  apply str_uint_digits.
Qed.

Lemma str_nat_nonempty (n : N) : str_nat n <> "".
Proof.
  apply str_uint_nonempty.
Qed.

Lemma digits_point_two_append (a : string) (d1 d2 : ascii) :
  all_digits a = true -> is_digit d1 = true -> is_digit d2 = true ->
  digits_point_two (a ++ "." ++ String d1 (String d2 "")) = true.
Proof.
  intros Ha H1 H2. induction a as [|c a IH]; simpl.
  - now rewrite H1, H2.
  - simpl in Ha. apply andb_prop in Ha as [Hc Ha]. rewrite Hc. now apply IH.
Qed.

Lemma two_decimals_unsigned (body : string) (s : bool) :
  (exists c rest, body = String c rest /\ is_digit c = true) ->
  digits_point_two body = true ->
  two_decimals (sign_prefix s ++ body) = true.
Proof.
  intros (c & rest & -> & Hc) Hb. unfold two_decimals.
  assert (unsigned (sign_prefix s ++ String c rest) = String c rest) as ->.
  { destruct s; simpl; [reflexivity | now rewrite (is_digit_not_minus c Hc)]. }
  now rewrite Hc.
Qed.

Lemma div_half_even_nonneg (n d : Z) : 0 <= n -> 0 < d -> 0 <= div_half_even n d.
Proof.
  intros Hn Hd. unfold div_half_even.
  assert (0 <= n / d) by (apply Z.div_pos; lia).
  destruct (2 * (n mod d) ?= d); [destruct (Z.even (n / d)) | |]; lia.
Qed.

Lemma hundredths_nonneg (m : positive) (e : Z) : 0 <= hundredths m e.
Proof.
  unfold hundredths. destruct e as [|p|p].
  - lia.
  - assert (0 < 2 ^ Z.pos p) by (apply Z.pow_pos_nonneg; lia). nia.
  - apply div_half_even_nonneg; [lia | apply Z.pow_pos_nonneg; lia].
Qed.

Lemma fixed2_shape (h : Z) (s : bool) :
  0 <= h -> two_decimals (sign_prefix s ++ fixed2 h) = true.
Proof.
  intro Hh. unfold fixed2.
  pose proof (str_nat_digits (Z.to_N (h / 100))) as Hd.
  pose proof (str_nat_nonempty (Z.to_N (h / 100))) as Hn.
  apply two_decimals_unsigned.
  - destruct (str_nat (Z.to_N (h / 100))) as [|c rest]; [contradiction|].
    simpl in Hd. apply andb_prop in Hd as [Hc _].
    exists c. eexists. split; [reflexivity | exact Hc].
  - apply digits_point_two_append; [exact Hd | |];
      apply digit_char_is_digit; apply Z.mod_pos_bound; lia.
Qed.

(** [".2f"] gives every finite float a numeral with exactly two decimals. *)
Lemma format_2f_two_decimals (x : float) :
  is_finite x = true -> two_decimals (format_2f x) = true.
Proof.
  destruct x as [s|s| |s m e]; simpl; intro H; try discriminate.
  - now destruct s.
  - apply fixed2_shape, hundredths_nonneg.
Qed.

(** [".2f"] gives a float that is not finite no decimals at all. *)
Lemma format_2f_not_finite (x : float) :
  is_finite x = false -> two_decimals (format_2f x) = false.
Proof.
  destruct x as [s|s| |s m e]; simpl; intro H; try discriminate.
  - now destruct s.
  - reflexivity.
Qed.

(** [str] of an integer is an integer numeral. *)
Lemma str_int_integer_numeral (z : Z) : integer_numeral (str_int z) = true.
Proof.
  unfold str_int, integer_numeral.
  assert (forall d, unsigned (NilZero.string_of_uint d) = NilZero.string_of_uint d) as Hu.
  { intro d. pose proof (str_uint_digits d) as Hd.
    destruct (NilZero.string_of_uint d) as [|c rest]; [reflexivity|].
    simpl in *. apply andb_prop in Hd as [Hc _].
    now rewrite (is_digit_not_minus c Hc). }
  destruct (Z.to_int z) as [d|d]; simpl.
  - rewrite Hu. pose proof (str_uint_nonempty d).
    destruct (NilZero.string_of_uint d) eqn:E; [contradiction|].
    rewrite <- E. apply str_uint_digits.
  - pose proof (str_uint_nonempty d).
    destruct (NilZero.string_of_uint d) eqn:E; [contradiction|].
    rewrite <- E. apply str_uint_digits.
Qed.

(** ** The formatter on a well-formed response *)

Lemma field_inv (key : string) (v x : pyval) :
  field key v = Some x -> exists d, v = PDict d /\ lookup key d = Some x.
Proof.
  destruct v; simpl; try discriminate. intro H. eauto.
Qed.

Lemma str_field_inv (key : string) (v : pyval) (s : string) :
  str_field key v = Some s -> exists d, v = PDict d /\ lookup key d = Some (PStr s).
Proof.
  unfold str_field. destruct (field key v) as [[]|] eqn:E; try discriminate.
  intros [= ->]. now apply field_inv.
Qed.

Lemma float_field_inv (key : string) (v : pyval) (x : float) :
  float_field key v = Some x -> exists d, v = PDict d /\ lookup key d = Some (PFloat x).
Proof.
  unfold float_field. destruct (field key v) as [[]|] eqn:E; try discriminate.
  intros [= ->]. now apply field_inv.
Qed.

Lemma int_field_inv (key : string) (v : pyval) (z : Z) :
  int_field key v = Some z -> exists d, v = PDict d /\ lookup key d = Some (PInt z).
Proof.
  unfold int_field. destruct (field key v) as [[]|] eqn:E; try discriminate.
  intros [= ->]. now apply field_inv.
Qed.

Lemma first_item_inv (v x : pyval) :
  first_item v = Some x -> exists rest, v = PList (x :: rest).
Proof.
  destruct v as [| | | | |[|y l]|]; simpl; try discriminate. intros [= ->]. eauto.
Qed.

Ltac step_omap H :=
  match type of H with
  | omap ?x _ = Some _ =>
      let E := fresh "E" in
      destruct x eqn:E; [cbn [omap] in H | discriminate H]
  end.

Ltac invert_field E :=
  first [ apply str_field_inv in E | apply float_field_inv in E
        | apply int_field_inv in E | apply field_inv in E ];
  let d := fresh "d" in
  let Hd := fresh "Hd" in
  destruct E as (d & Hd & E); try (injection Hd as <-); subst.

Lemma read_locals_reading (data : pyval) (r : WeatherReading) :
  reading_of data = Some r -> read_locals data = Return (locals_of_reading r).
Proof.
  unfold reading_of. intro H. do 12 step_omap H. injection H as <-.
  apply first_item_inv in E1 as (rest & ->).
  invert_field E. invert_field E0. invert_field E2. invert_field E3.
  invert_field E4. invert_field E5. invert_field E6. invert_field E7.
  invert_field E8. invert_field E9. invert_field E10.
  unfold read_locals, getitem. rewrite E, E0, E3, E9. cbn [obind getitem0].
  unfold getitem. rewrite E2, E4, E5, E6, E7, E8, E10. reflexivity.
Qed.

Lemma convert_reading (r : WeatherReading) (u : UnitSelection) :
  convert (locals_of_reading r) (unit_code u)
  = Return (set_temperatures (locals_of_reading r)
              (spec_convert u (temperatureKelvin r))
              (spec_convert u (feelsLikeKelvin r))
              (spec_convert u (minTemperatureKelvin r))
              (spec_convert u (maxTemperatureKelvin r)),
            unit_label u).
Proof.
  destruct u; reflexivity.
Qed.

Section Formatter.

Variable rt : Runtime.

Lemma render_reading (r : WeatherReading) (u : UnitSelection) :
  render rt
    (set_temperatures (locals_of_reading r)
       (spec_convert u (temperatureKelvin r))
       (spec_convert u (feelsLikeKelvin r))
       (spec_convert u (minTemperatureKelvin r))
       (spec_convert u (maxTemperatureKelvin r)))
    (unit_label u)
  = if within_str_limit (max_str_digits rt) (humidityPercent r)
    then Return (expected_text rt r u)
    else Raise ValueError.
Proof.
  unfold render, py_str, expected_text, template_lines, join_lines.
  cbn [set_temperatures locals_of_reading location weather_description
       temperature feels_like temp_min temp_max humidity wind_speed
       obind format_spec_2f as_number].
  destruct (within_str_limit (max_str_digits rt) (humidityPercent r));
    cbn [obind]; [|reflexivity].
  repeat rewrite append_assoc. reflexivity.
Qed.

Lemma format_weather_reading_limit
  (data : pyval) (r : WeatherReading) (u : UnitSelection) :
  reading_of data = Some r ->
  format_weather rt data (unit_code u)
  = if within_str_limit (max_str_digits rt) (humidityPercent r)
    then Return (expected_text rt r u)
    else Raise ValueError.
Proof.
  intro H. unfold format_weather.
  rewrite (read_locals_reading data r H). simpl obind.
  rewrite convert_reading. simpl obind. apply render_reading.
Qed.

Lemma format_weather_reading (data : pyval) (r : WeatherReading) (u : UnitSelection) :
  reading_of data = Some r ->
  within_str_limit (max_str_digits rt) (humidityPercent r) = true ->
  format_weather rt data (unit_code u) = Return (expected_text rt r u).
Proof.
  intros H L. rewrite (format_weather_reading_limit data r u H). now rewrite L.
Qed.

End Formatter.

(** ** One click of the button *)

Section Handler.

Variable rt : Runtime.

(** What the handler does once the key is known to be set, by the answer of
    the server. *)
Lemma get_weather_info_run (st : state) (key : string) :
  environ (world st) "OPENWEATHER_API_KEY" = Some key -> key <> "" ->
  let url := request_url key (location_entry (self st)) in
  get_weather_info rt st
  = match server (world st) (network_calls st) url with
    | NoResponse => (Raise RequestException, logged url st)
    | Response None => (Raise JSONDecodeError, logged url st)
    | Response (Some data) =>
        match valid_response data with
        | Raise e => (Raise e, logged url st)
        | Return false => (Return tt, with_label failure_text (logged url st))
        | Return true =>
            match format_weather rt data (selected_unit (self st)) with
            | Raise e => (Raise e, logged url st)
            | Return info => (Return tt, with_label info (logged url st))
            end
        end
    end.
Proof.
  intros Hkey Hne url.
  unfold get_weather_info, bind, getenv. rewrite Hkey.
  assert (not_set (Some key) = false) as ->.
  { simpl. now apply String.eqb_neq. }
  unfold location_entry_text, c_button_isChecked, f_button_isChecked,
    get_weather, bind, requests_get, network_calls.
  fold url.
  destruct (server (world st) (Datatypes.length (sent (world st))) url) as [|[data|]];
    try reflexivity.
  cbn [response_json ret lift]. unfold lift.
  destruct (valid_response data) as [[|]|e]; reflexivity.
Qed.

Lemma reading_valid (data : pyval) (r : WeatherReading) :
  reading_of data = Some r -> valid_response data = Return true.
Proof.
  unfold reading_of. intro H. step_omap H.
  apply str_field_inv in E as (d & -> & E).
  unfold valid_response, contains. rewrite E.
  destruct d; [discriminate E | reflexivity].
Qed.

Lemma lacks_name_invalid (data : pyval) :
  lacks_name data = true -> valid_response data = Return false.
Proof.
  unfold lacks_name, valid_response. intro H.
  destruct (truthy data) eqn:T; [|reflexivity].
  simpl in H. destruct data; try discriminate H. simpl.
  now destruct (lookup "name" d).
Qed.

End Handler.

Lemma obind_raises {A B : Type} (m : outcome A) (k : A -> outcome B) :
  (forall a, exists e, k a = Raise e) -> exists e, obind m k = Raise e.
Proof.
  intro H. destruct m as [a|e]; simpl; [apply H | eauto].
Qed.

Lemma freezing_celsius : format_2f (spec_convert Celsius lit_273_15) = "0.00".
Proof. vm_compute. reflexivity. Qed.

Lemma freezing_fahrenheit : format_2f (spec_convert Fahrenheit lit_273_15) = "32.00".
Proof. vm_compute. reflexivity. Qed.

Lemma freezing_kelvin : format_2f (spec_convert Kelvin lit_273_15) = "273.15".
Proof. vm_compute. reflexivity. Qed.

(** ** The layout of the text *)

Lemma line_count_breaks (s : string) : line_count s = S (breaks s).
Proof.
  induction s as [|c s IH]; simpl; [reflexivity|].
  destruct (Ascii.eqb c (ascii_of_nat 10)); now rewrite IH.
Qed.

Lemma breaks_append (a b : string) : breaks (a ++ b) = (breaks a + breaks b)%nat.
Proof.
  induction a as [|c a IH]; simpl; [reflexivity|].
  destruct (Ascii.eqb c (ascii_of_nat 10)); now rewrite IH.
Qed.

Lemma one_line_breaks (s : string) : one_line s = true <-> breaks s = 0%nat.
Proof.
  induction s as [|c s IH]; simpl; [tauto|].
  destruct (Ascii.eqb c (ascii_of_nat 10)); simpl; [split; discriminate | exact IH].
Qed.

Lemma one_line_append (a b : string) :
  one_line a = true -> one_line b = true -> one_line (a ++ b) = true.
Proof.
  rewrite !one_line_breaks, breaks_append. lia.
Qed.

Lemma is_digit_not_newline (c : ascii) :
  is_digit c = true -> Ascii.eqb c (ascii_of_nat 10) = false.
Proof.
  intro H. destruct (Ascii.eqb_spec c (ascii_of_nat 10)) as [->|];
    [discriminate H | reflexivity].
Qed.

Lemma all_digits_one_line (s : string) : all_digits s = true -> one_line s = true.
Proof.
  induction s as [|c s IH]; simpl; [trivial|].
  intro H. apply andb_prop in H as [Hc Hs].
  now rewrite (is_digit_not_newline c Hc), IH.
Qed.

Lemma str_nat_one_line (n : N) : one_line (str_nat n) = true.
Proof. apply all_digits_one_line, str_nat_digits. Qed.

Lemma sign_prefix_one_line (s : bool) : one_line (sign_prefix s) = true.
Proof. now destruct s. Qed.

Lemma format_2f_one_line (x : float) : one_line (format_2f x) = true.
Proof.
  destruct x as [s|s| |s m e]; cbn [format_2f];
    try reflexivity; try (now destruct s).
  apply one_line_append; [apply sign_prefix_one_line|].
  unfold fixed2. apply one_line_append; [apply str_nat_one_line|].
  pose proof (hundredths_nonneg m e) as Hh.
  apply (one_line_append "."); [reflexivity|].
  apply all_digits_one_line. cbn [all_digits].
  rewrite !digit_char_is_digit; [reflexivity | |]; apply Z.mod_pos_bound; lia.
Qed.

Lemma str_int_one_line (z : Z) : one_line (str_int z) = true.
Proof.
  unfold str_int. destruct (Z.to_int z) as [d|d]; simpl.
  - apply all_digits_one_line, str_uint_digits.
  - apply all_digits_one_line, str_uint_digits.
Qed.

Lemma expected_text_breaks (rt : Runtime) (r : WeatherReading) (u : UnitSelection) :
  breaks (expected_text rt r u)
  = (8 + breaks (locationName r) + breaks (description r)
     + breaks (str_float rt (windSpeedMetersPerSecond r)))%nat.
Proof.
  unfold expected_text, template_lines, join_lines.
  rewrite !breaks_append.
  pose proof (fun x => proj1 (one_line_breaks _) (format_2f_one_line x)) as Hf.
  rewrite !Hf.
  rewrite (proj1 (one_line_breaks _) (str_int_one_line _)).
  assert (breaks (unit_label u) = 0%nat) as -> by (now destruct u).
  change (breaks newline) with 1%nat.
  change (breaks "Weather Information:") with 0%nat.
  change (breaks "Location: ") with 0%nat.
  change (breaks "Weather: ") with 0%nat.
  change (breaks "Temperature: ") with 0%nat.
  change (breaks "Feels Like: ") with 0%nat.
  change (breaks "Min Temperature: ") with 0%nat.
  change (breaks "Max Temperature: ") with 0%nat.
  change (breaks "Humidity: ") with 0%nat.
  change (breaks "Wind Speed: ") with 0%nat.
  change (breaks " ") with 0%nat.
  change (breaks "%") with 0%nat.
  change (breaks " m/s") with 0%nat.
  lia.
Qed.

(** ** The claims about the formatter *)

(** C2: for a response that holds the reading [r] and for each unit
    selection, lines 130-152 leave in each of the four temperature variables
    the conversion of its own Kelvin field and nothing else: [value - 273.15]
    for Celsius, [(value - 273.15) * 9/5 + 32] for Fahrenheit, the value
    itself for Kelvin; the other variables are as read. *)
Theorem conversion_follows_unit (data : pyval) (r : WeatherReading) (u : UnitSelection) :
  reading_of data = Some r ->
  (let* l := read_locals data in convert l (unit_code u))
  = Return ({| location := PStr (locationName r);
               weather_description := PStr (description r);
               temperature := PFloat (spec_convert u (temperatureKelvin r));
               feels_like := PFloat (spec_convert u (feelsLikeKelvin r));
               temp_min := PFloat (spec_convert u (minTemperatureKelvin r));
               temp_max := PFloat (spec_convert u (maxTemperatureKelvin r));
               humidity := PInt (humidityPercent r);
               wind_speed := PFloat (windSpeedMetersPerSecond r) |},
            unit_label u).
Proof.
  intro H. rewrite (read_locals_reading data r H). cbn [obind].
  now rewrite convert_reading.
Qed.

Lemma conversion_follows_unit_witness :
  reading_of london = Some london_reading
  /\ (let* l := read_locals london in convert l "F")
     = Return ({| location := PStr "London";
                  weather_description := PStr "clear sky";
                  temperature := PFloat (spec_convert Fahrenheit (of_Z 280));
                  feels_like := PFloat (spec_convert Fahrenheit (of_Z 279));
                  temp_min := PFloat (spec_convert Fahrenheit (of_Z 278));
                  temp_max := PFloat (spec_convert Fahrenheit (of_Z 282));
                  humidity := PInt 60;
                  wind_speed := PFloat (div (of_Z 35) (of_Z 10)) |},
               "°F").
Proof.
  split; [reflexivity |].
  apply (conversion_follows_unit london london_reading Fahrenheit). reflexivity.
Defined.


Section FormatterClaims.

Variable rt : Runtime.

(** C3 (as amended): for a response that holds the reading [r], with a
    humidity that [str] will write, the text is the nine entries of the
    template, in the order heading, location, weather description,
    temperature, feels-like, min, max, humidity, wind speed, joined by line
    breaks.  Name, description and wind-speed text go in as they are, so the
    text has six lines more than these three have together: nine exactly when
    none of them contains a line break.  Each converted temperature goes
    through [".2f"], which gives exactly two decimal places when the converted
    value is finite and none when it is not; humidity is the integer's numeral
    followed by a percent sign; wind speed is [str] of the float as
    received. *)
Theorem rendered_template (data : pyval) (r : WeatherReading) (u : UnitSelection) :
  reading_of data = Some r ->
  within_str_limit (max_str_digits rt) (humidityPercent r) = true ->
  let t := spec_convert u (temperatureKelvin r) in
  let fl := spec_convert u (feelsLikeKelvin r) in
  let mn := spec_convert u (minTemperatureKelvin r) in
  let mx := spec_convert u (maxTemperatureKelvin r) in
  let wind := str_float rt (windSpeedMetersPerSecond r) in
  let text :=
    join_lines
      (template_lines (locationName r) (description r)
         (format_2f t) (format_2f fl) (format_2f mn) (format_2f mx)
         (str_int (humidityPercent r)) wind (unit_label u)) in
  format_weather rt data (unit_code u) = Return text
  /\ line_count text
     = (6 + line_count (locationName r) + line_count (description r)
        + line_count wind)%nat
  /\ (line_count text = 9%nat
      <-> one_line (locationName r) = true /\ one_line (description r) = true
          /\ one_line wind = true)
  /\ (forall x, In x [t; fl; mn; mx] -> is_finite x = true ->
      two_decimals (format_2f x) = true)
  /\ (forall x, In x [t; fl; mn; mx] -> is_finite x = false ->
      two_decimals (format_2f x) = false)
  /\ integer_numeral (str_int (humidityPercent r)) = true.
Proof.
  intros H L t fl mn mx wind text.
  change text with (expected_text rt r u).
  split; [apply (format_weather_reading rt data r u H L)|].
  rewrite !line_count_breaks, expected_text_breaks, !one_line_breaks.
  fold wind. split; [lia|]. split; [lia|]. split; [|split].
  - intros x _. apply format_2f_two_decimals.
  - intros x _. apply format_2f_not_finite.
  - apply str_int_integer_numeral.
Qed.

(** C7: for a response whose temperature is 273.15 K (and whose humidity
    [str] will write), the temperature line reads [0.00 °C] under Celsius,
    [32.00 °F] under Fahrenheit and [273.15 K] under Kelvin. *)
Theorem freezing_point_rendering (data : pyval) (r : WeatherReading) :
  reading_of data = Some r ->
  within_str_limit (max_str_digits rt) (humidityPercent r) = true ->
  temperatureKelvin r = lit_273_15 ->
  (forall u : UnitSelection,
      format_weather rt data (unit_code u)
      = Return (join_lines
                  (template_lines (locationName r) (description r)
                     (match u with
                      | Celsius => "0.00"
                      | Fahrenheit => "32.00"
                      | Kelvin => "273.15"
                      end)
                     (format_2f (spec_convert u (feelsLikeKelvin r)))
                     (format_2f (spec_convert u (minTemperatureKelvin r)))
                     (format_2f (spec_convert u (maxTemperatureKelvin r)))
                     (str_int (humidityPercent r))
                     (str_float rt (windSpeedMetersPerSecond r))
                     (unit_label u)))).
Proof.
  intros H L Ht u. rewrite (format_weather_reading rt data r u H L).
  unfold expected_text. rewrite Ht.
  destruct u;
    [rewrite freezing_celsius | rewrite freezing_fahrenheit | rewrite freezing_kelvin];
    reflexivity.
Qed.

(** C9: [display_weather_info] returns the same text from every state,
    leaves the state as it found it, and a second call after the first
    returns what the first did. *)
Theorem display_weather_info_pure (data : pyval) (unit : string) (st1 st2 : state) :
  fst (display_weather_info rt data unit st1)
  = fst (display_weather_info rt data unit st2)
  /\ snd (display_weather_info rt data unit st1) = st1
  /\ display_weather_info rt data unit
       (snd (display_weather_info rt data unit st1))
     = display_weather_info rt data unit st1.
Proof.
  repeat split.
Qed.

End FormatterClaims.

(** ** The request URL *)

Lemma length_append (a b : string) :
  String.length (a ++ b) = (String.length a + String.length b)%nat.
Proof.
  induction a as [|c a IH]; simpl; [reflexivity | now rewrite IH].
Qed.

Lemma append_cancel_l (a b c : string) : a ++ b = a ++ c -> b = c.
Proof.
  induction a as [|x a IH]; simpl; [trivial | intros [= H]; auto].
Qed.

Lemma append_cancel_r (a b c : string) : b ++ a = c ++ a -> b = c.
Proof.
  revert c. induction b as [|x b IH]; intros [|y c] H.
  - reflexivity.
  - apply (f_equal String.length) in H. simpl in H. rewrite length_append in H. lia.
  - apply (f_equal String.length) in H. simpl in H. rewrite length_append in H. lia.
  - simpl in H. injection H as -> H. f_equal. now apply IH.
Qed.

Lemma spec_url_encode_length (s : string) :
  (String.length s <= String.length (spec_url_encode s))%nat.
Proof.
  induction s as [|c s IH]; simpl; [lia|].
  destruct (is_unreserved c); simpl; lia.
Qed.

Lemma spec_url_encode_fixed (s : string) :
  spec_url_encode s = s <-> all_unreserved s = true.
Proof.
  induction s as [|c s IH]; simpl; [tauto|].
  destruct (is_unreserved c); simpl.
  - rewrite <- IH. split; [intros [= H]; exact H | intros ->; reflexivity].
  - split; [|discriminate]. intro H.
    apply (f_equal String.length) in H. simpl in H.
    pose proof (spec_url_encode_length s). lia.
Qed.

(** ** The claims about the fetch *)

(** C5 (as amended): [get_weather] calls [requests.get] exactly once, and
    the one argument it gives is the fixed prefix, the location as typed,
    [&appid=] and the key, put together by the program without any encoding;
    it gives no headers and no body.  That string is the percent-encoded URL
    of the specification exactly when the location is made of unreserved
    characters only, and its fixed text names no [units] parameter.  What the
    library does with the string afterwards is not stated. *)
Theorem get_weather_request (api_key loc : string) (st : state) :
  sent (world (snd (get_weather api_key loc st)))
  = (sent (world st)
     ++ [ {| req_verb := "GET";
             req_url := "https://api.openweathermap.org/data/2.5/weather?q="
                          ++ loc ++ "&appid=" ++ api_key;
             req_headers := [];
             req_body := None |} ])%list
  /\ (request_url api_key loc = spec_request_url api_key loc
      <-> all_unreserved loc = true)
  /\ is_substring "units" (request_url "" "") = false.
Proof.
  split; [|split; [|reflexivity]].
  - unfold get_weather, bind, requests_get.
    destruct (server (world st) _ _) as [|[data|]]; reflexivity.
  - rewrite <- spec_url_encode_fixed. unfold request_url, spec_request_url.
    split.
    + intro H. apply append_cancel_l in H. apply append_cancel_r in H.
      now symmetry.
    + intros ->. reflexivity.
Qed.

(** C5 fails as stated: a location with reserved characters is handed to
    [requests.get] as typed, where the specification's URL has it
    percent-encoded, and here its [&] and [=] even make a [units] parameter
    of their own in the query. *)
Lemma request_url_not_encoded :
  let st := start (form "Paris&units=metric" false false false)
                  (env_with_key "KEY") (Response (Some london)) in
  sent (world (snd (get_weather "KEY" "Paris&units=metric" st)))
  = [ {| req_verb := "GET";
         req_url := "https://api.openweathermap.org/data/2.5/weather?q=Paris&units=metric&appid=KEY";
         req_headers := [];
         req_body := None |} ]
  /\ spec_request_url "KEY" "Paris&units=metric"
     = "https://api.openweathermap.org/data/2.5/weather?q=Paris%26units%3Dmetric&appid=KEY"
  /\ request_url "KEY" "Paris&units=metric" <> spec_request_url "KEY" "Paris&units=metric".
Proof.
  repeat split. discriminate.
Qed.

Section HandlerClaims.

Variable rt : Runtime.

(** C4 (as amended): when OPENWEATHER_API_KEY is absent or empty, the handler
    raises [RuntimeError("OPENWEATHER_API_KEY is not set")] and leaves the
    state, the log of requests included, as it was: no network call is
    made. *)
Theorem missing_key_stops_fetch (st : state) :
  environ (world st) "OPENWEATHER_API_KEY" = None
  \/ environ (world st) "OPENWEATHER_API_KEY" = Some "" ->
  fst (get_weather_info rt st)
  = Raise (RuntimeError "OPENWEATHER_API_KEY is not set")
  /\ snd (get_weather_info rt st) = st
  /\ network_calls (snd (get_weather_info rt st)) = network_calls st.
Proof.
  intro H. unfold get_weather_info, bind, getenv.
  destruct H as [-> | ->]; repeat split.
Qed.

(** C1 (as amended): with the key set, the handler shows exactly the failure
    sentence, returns normally and leaves the location, the buttons and the
    environment alone, ready for another click, when the body is JSON that
    is empty, null or an object without [name];
    when no response arrives or the body is not JSON it raises instead and
    the window is left as it was. *)
Theorem fetch_failure_outcome (st : state) (key : string) :
  environ (world st) "OPENWEATHER_API_KEY" = Some key -> key <> "" ->
  let url := request_url key (location_entry (self st)) in
  let run := get_weather_info rt st in
  match server (world st) (network_calls st) url with
  | Response (Some data) =>
      lacks_name data = true ->
      fst run = Return tt
      /\ info_label (self (snd run)) = failure_text
      /\ location_entry (self (snd run)) = location_entry (self st)
      /\ c_button (self (snd run)) = c_button (self st)
      /\ f_button (self (snd run)) = f_button (self st)
      /\ k_button (self (snd run)) = k_button (self st)
      /\ environ (world (snd run)) = environ (world st)
  | Response None =>
      fst run = Raise JSONDecodeError /\ self (snd run) = self st
  | NoResponse =>
      fst run = Raise RequestException /\ self (snd run) = self st
  end.
Proof.
  intros Hkey Hne url run. unfold run.
  rewrite (get_weather_info_run rt st key Hkey Hne). fold url.
  destruct (server (world st) (network_calls st) url) as [|[data|]].
  - split; reflexivity.
  - intro Hbad. rewrite (lacks_name_invalid data Hbad). repeat split.
  - split; reflexivity.
Qed.

(** C6: with the key set, neither the Celsius nor the Fahrenheit button
    checked and a response that holds the reading [r] (its humidity one that
    [str] will write), the unit is ['K'], the
    conversion step hands the variables on untouched with the label [K], and
    the label shows the four Kelvin values as received, each through
    [".2f"]. *)
Theorem no_button_defaults_to_kelvin
  (st : state) (key : string) (data : pyval) (r : WeatherReading) :
  environ (world st) "OPENWEATHER_API_KEY" = Some key -> key <> "" ->
  c_button (self st) = false -> f_button (self st) = false ->
  server (world st) (network_calls st) (request_url key (location_entry (self st)))
  = Response (Some data) ->
  reading_of data = Some r ->
  within_str_limit (max_str_digits rt) (humidityPercent r) = true ->
  selected_unit (self st) = "K"
  /\ (forall l, convert l (selected_unit (self st)) = Return (l, "K"))
  /\ fst (get_weather_info rt st) = Return tt
  /\ info_label (self (snd (get_weather_info rt st)))
     = join_lines
         (template_lines (locationName r) (description r)
            (format_2f (temperatureKelvin r))
            (format_2f (feelsLikeKelvin r))
            (format_2f (minTemperatureKelvin r))
            (format_2f (maxTemperatureKelvin r))
            (str_int (humidityPercent r))
            (str_float rt (windSpeedMetersPerSecond r))
            "K").
Proof.
  intros Hkey Hne Hc Hf Hsrv Hr Hl.
  assert (selected_unit (self st) = "K") as Hu.
  { unfold selected_unit. now rewrite Hc, Hf. }
  pose proof (format_weather_reading rt data r Kelvin Hr Hl) as Hfw.
  cbn [unit_code] in Hfw.
  rewrite (get_weather_info_run rt st key Hkey Hne), Hsrv.
  rewrite (reading_valid data r Hr), Hu, Hfw.
  split; [reflexivity|]. split; [intro l; reflexivity|]. split; reflexivity.
Qed.

(** C10: with the key set and a response object that has [name] but lacks
    [weather], [main] or [wind], or whose [weather] is an empty list, the
    guard of line 97 passes, the formatter is called and raises, the
    exception leaves the handler, and the label keeps its old text: neither a
    rendered reading nor the failure sentence is shown. *)
Theorem incomplete_response_raises
  (st : state) (key : string) (d : list (string * pyval)) :
  environ (world st) "OPENWEATHER_API_KEY" = Some key -> key <> "" ->
  server (world st) (network_calls st) (request_url key (location_entry (self st)))
  = Response (Some (PDict d)) ->
  lookup "name" d <> None ->
  lookup "weather" d = None \/ lookup "weather" d = Some (PList [])
  \/ lookup "main" d = None \/ lookup "wind" d = None ->
  valid_response (PDict d) = Return true
  /\ exists e,
       format_weather rt (PDict d) (selected_unit (self st)) = Raise e
       /\ fst (get_weather_info rt st) = Raise e
       /\ info_label (self (snd (get_weather_info rt st)))
          = info_label (self st).
Proof.
  intros Hkey Hne Hsrv Hname Hmiss.
  assert (valid_response (PDict d) = Return true) as Hvalid.
  { unfold valid_response, contains.
    destruct (lookup "name" d) eqn:E; [|contradiction].
    destruct d; [discriminate E | reflexivity]. }
  split; [exact Hvalid|].
  assert (exists e, read_locals (PDict d) = Raise e) as [e He].
  { unfold read_locals.
    destruct Hmiss as [H | [H | [H | H]]].
    - apply obind_raises; intro. cbn [getitem]. rewrite H. cbn. eauto.
    - apply obind_raises; intro. cbn [getitem]. rewrite H. cbn. eauto.
    - do 2 (apply obind_raises; intro). cbn [getitem]. rewrite H. cbn. eauto.
    - do 7 (apply obind_raises; intro). cbn [getitem]. rewrite H. cbn. eauto. }
  exists e.
  assert (format_weather rt (PDict d) (selected_unit (self st)) = Raise e)
    as Hf.
  { unfold format_weather. now rewrite He. }
  rewrite (get_weather_info_run rt st key Hkey Hne), Hsrv, Hvalid, Hf.
  repeat split.
Qed.

End HandlerClaims.

(** ** Runs *)

(** The example of the specification: London under Celsius. *)
Example london_celsius :
  format_weather sample_runtime london "C"
  = Return (join_lines
              [ "Weather Information:";
                "Location: London";
                "Weather: clear sky";
                "Temperature: 6.85 °C";
                "Feels Like: 5.85 °C";
                "Min Temperature: 4.85 °C";
                "Max Temperature: 8.85 °C";
                "Humidity: 60%";
                "Wind Speed: 3.5 m/s" ]).
Proof. vm_compute. reflexivity. Qed.

(** C1 fails as stated: when no response arrives, or the body is not JSON,
    the handler raises and the label keeps its text, which is not the failure
    sentence. *)
Lemma fetch_error_not_reported :
  (fst (get_weather_info sample_runtime st_offline) = Raise RequestException
   /\ info_label (self (snd (get_weather_info sample_runtime st_offline))) = ""
   /\ info_label (self (snd (get_weather_info sample_runtime st_offline)))
      <> failure_text)
  /\ (fst (get_weather_info sample_runtime st_not_json) = Raise JSONDecodeError
      /\ info_label (self (snd (get_weather_info sample_runtime st_not_json))) = ""
      /\ info_label (self (snd (get_weather_info sample_runtime st_not_json)))
         <> failure_text).
Proof.
  repeat split; discriminate.
Qed.

Lemma fetch_failure_outcome_witness :
  environ (world st_not_found) "OPENWEATHER_API_KEY" = Some "KEY"
  /\ "KEY" <> ""
  /\ lacks_name not_found = true
  /\ fst (get_weather_info sample_runtime st_not_found) = Return tt
  /\ info_label (self (snd (get_weather_info sample_runtime st_not_found)))
     = "Failed to fetch weather data. Please check the location and try again."
  /\ location_entry (self (snd (get_weather_info sample_runtime st_not_found)))
     = "Atlantis"
  /\ c_button (self (snd (get_weather_info sample_runtime st_not_found))) = false
  /\ f_button (self (snd (get_weather_info sample_runtime st_not_found))) = false
  /\ k_button (self (snd (get_weather_info sample_runtime st_not_found))) = false
  /\ environ (world (snd (get_weather_info sample_runtime st_not_found)))
     = env_with_key "KEY".
Proof.
  split; [reflexivity|]. split; [discriminate|]. split; [reflexivity|].
  apply (fetch_failure_outcome sample_runtime st_not_found "KEY");
    [reflexivity | discriminate | reflexivity].
Defined.

(** C3 fails as stated: the text for London has nine lines, not eight, and a
    finite temperature of 1e308 K turns under Fahrenheit into an infinity,
    which [".2f"] renders as [inf], with no decimal places. *)
Lemma rendered_text_counterexample :
  (exists out,
      format_weather sample_runtime london "C" = Return out
      /\ line_count out = 9%nat
      /\ line_count out <> 8%nat)
  /\ reading_of scorching = Some scorching_reading
  /\ is_finite (temperatureKelvin scorching_reading) = true
  /\ format_weather sample_runtime scorching "F"
     = Return (join_lines
                 [ "Weather Information:";
                   "Location: London";
                   "Weather: clear sky";
                   "Temperature: inf °F";
                   "Feels Like: 42.53 °F";
                   "Min Temperature: 40.73 °F";
                   "Max Temperature: 47.93 °F";
                   "Humidity: 60%";
                   "Wind Speed: 3.5 m/s" ])
  /\ two_decimals "inf" = false.
Proof.
  split.
  - eexists. split; [vm_compute; reflexivity|]. split; [reflexivity | discriminate].
  - split; [reflexivity|]. split; [reflexivity|].
    split; [vm_compute; reflexivity | reflexivity].
Qed.

Lemma rendered_template_witness :
  reading_of london = Some london_reading
  /\ within_str_limit (max_str_digits sample_runtime) 60 = true
  /\ format_weather sample_runtime london "C"
     = Return (join_lines
                 (template_lines "London" "clear sky" "6.85" "5.85" "4.85" "8.85"
                    "60" "3.5" "°C"))
  /\ line_count
       (join_lines
          (template_lines "London" "clear sky" "6.85" "5.85" "4.85" "8.85"
             "60" "3.5" "°C"))
     = (6 + line_count "London" + line_count "clear sky" + line_count "3.5")%nat
  /\ (line_count
        (join_lines
           (template_lines "London" "clear sky" "6.85" "5.85" "4.85" "8.85"
              "60" "3.5" "°C")) = 9%nat
      <-> one_line "London" = true /\ one_line "clear sky" = true
          /\ one_line "3.5" = true)
  /\ (forall x,
         In x [spec_convert Celsius (of_Z 280); spec_convert Celsius (of_Z 279);
               spec_convert Celsius (of_Z 278); spec_convert Celsius (of_Z 282)] ->
         is_finite x = true -> two_decimals (format_2f x) = true)
  /\ (forall x,
         In x [spec_convert Celsius (of_Z 280); spec_convert Celsius (of_Z 279);
               spec_convert Celsius (of_Z 278); spec_convert Celsius (of_Z 282)] ->
         is_finite x = false -> two_decimals (format_2f x) = false)
  /\ integer_numeral "60" = true.
Proof.
  split; [reflexivity|]. split; [reflexivity|].
  exact (rendered_template sample_runtime london london_reading Celsius
           eq_refl eq_refl).
Defined.

(** C4 fails as stated: the message of the error is not "API key not set". *)
Lemma missing_key_message :
  fst (get_weather_info sample_runtime st_no_key)
  = Raise (RuntimeError "OPENWEATHER_API_KEY is not set")
  /\ fst (get_weather_info sample_runtime st_no_key)
     <> Raise (RuntimeError "API key not set").
Proof.
  split; [reflexivity | discriminate].
Qed.

Lemma missing_key_stops_fetch_witness :
  (environ (world st_no_key) "OPENWEATHER_API_KEY" = None
   \/ environ (world st_no_key) "OPENWEATHER_API_KEY" = Some "")
  /\ fst (get_weather_info sample_runtime st_no_key)
     = Raise (RuntimeError "OPENWEATHER_API_KEY is not set")
  /\ snd (get_weather_info sample_runtime st_no_key) = st_no_key
  /\ network_calls (snd (get_weather_info sample_runtime st_no_key)) = 0%nat.
Proof.
  split; [left; reflexivity|].
  apply (missing_key_stops_fetch sample_runtime st_no_key). left. reflexivity.
Defined.

Lemma no_button_defaults_to_kelvin_witness :
  environ (world st_london) "OPENWEATHER_API_KEY" = Some "KEY"
  /\ "KEY" <> ""
  /\ c_button (self st_london) = false
  /\ f_button (self st_london) = false
  /\ server (world st_london) (network_calls st_london)
       (request_url "KEY" (location_entry (self st_london)))
     = Response (Some london)
  /\ reading_of london = Some london_reading
  /\ within_str_limit (max_str_digits sample_runtime) 60 = true
  /\ selected_unit (self st_london) = "K"
  /\ (forall l, convert l (selected_unit (self st_london)) = Return (l, "K"))
  /\ fst (get_weather_info sample_runtime st_london) = Return tt
  /\ info_label (self (snd (get_weather_info sample_runtime st_london)))
     = join_lines
         (template_lines "London" "clear sky" "280.00" "279.00" "278.00" "282.00"
            "60" "3.5" "K").
Proof.
  split; [reflexivity|]. split; [discriminate|]. do 5 (split; [reflexivity|]).
  apply (no_button_defaults_to_kelvin sample_runtime st_london "KEY" london
           london_reading);
    solve [reflexivity | discriminate].
Defined.

Lemma freezing_point_rendering_witness :
  reading_of freezing = Some freezing_reading
  /\ within_str_limit (max_str_digits sample_runtime) 60 = true
  /\ temperatureKelvin freezing_reading = lit_273_15
  /\ forall u : UnitSelection,
       format_weather sample_runtime freezing (unit_code u)
       = Return (join_lines
                   (template_lines "London" "clear sky"
                      (match u with
                       | Celsius => "0.00"
                       | Fahrenheit => "32.00"
                       | Kelvin => "273.15"
                       end)
                      (format_2f (spec_convert u lit_273_15))
                      (format_2f (spec_convert u lit_273_15))
                      (format_2f (spec_convert u lit_273_15))
                      "60" "3.5" (unit_label u))).
Proof.
  split; [reflexivity|]. split; [reflexivity|]. split; [reflexivity|].
  exact (freezing_point_rendering sample_runtime freezing freezing_reading
           eq_refl eq_refl eq_refl).
Defined.

Lemma incomplete_response_raises_witness :
  environ (world st_name_only) "OPENWEATHER_API_KEY" = Some "KEY"
  /\ "KEY" <> ""
  /\ server (world st_name_only) (network_calls st_name_only)
       (request_url "KEY" (location_entry (self st_name_only)))
     = Response (Some name_only)
  /\ lookup "name" [("name", PStr "London")] <> None
  /\ lookup "weather" [("name", PStr "London")] = None
  /\ valid_response name_only = Return true
  /\ exists e,
       format_weather sample_runtime name_only
         (selected_unit (self st_name_only)) = Raise e
       /\ fst (get_weather_info sample_runtime st_name_only) = Raise e
       /\ info_label (self (snd (get_weather_info sample_runtime st_name_only)))
          = info_label (self st_name_only).
Proof.
  split; [reflexivity|]. split; [discriminate|]. split; [reflexivity|].
  split; [discriminate|]. split; [reflexivity|].
  apply (incomplete_response_raises sample_runtime st_name_only "KEY"
           [("name", PStr "London")]);
    solve [reflexivity | discriminate | left; reflexivity].
Defined.

(** * Further properties *)

(** ** What one click does to the window and the world *)

Section Click.

Variable rt : Runtime.

Lemma get_weather_info_unset (st : state) :
  not_set (environ (world st) "OPENWEATHER_API_KEY") = true ->
  get_weather_info rt st
  = (Raise (RuntimeError "OPENWEATHER_API_KEY is not set"), st).
Proof.
  intro H. unfold get_weather_info, bind, getenv. cbn [fst snd]. now rewrite H.
Qed.

Lemma not_set_false (k : option string) :
  not_set k = false -> exists key, k = Some key /\ key <> "".
Proof.
  destruct k as [key|]; simpl; [|discriminate].
  intro H. exists key. split; [reflexivity | now apply String.eqb_neq].
Qed.

(** X1: a click never touches the location field, the radio buttons, the
    environment or the server, and it sends at most one request: none when
    the key is absent or empty, and otherwise exactly one, for the URL built
    from the key and the location field, whether the handler then returns or
    raises. *)
Theorem click_frame (st : state) :
  let st' := snd (get_weather_info rt st) in
  location_entry (self st') = location_entry (self st)
  /\ c_button (self st') = c_button (self st)
  /\ f_button (self st') = f_button (self st)
  /\ k_button (self st') = k_button (self st)
  /\ environ (world st') = environ (world st)
  /\ server (world st') = server (world st)
  /\ sent (world st')
     = match environ (world st) "OPENWEATHER_API_KEY" with
       | None => sent (world st)
       | Some key =>
           if String.eqb key "" then sent (world st)
           else (sent (world st)
                 ++ [ {| req_verb := "GET";
                         req_url := request_url key (location_entry (self st));
                         req_headers := [];
                         req_body := None |} ])%list
       end.
Proof.
  destruct (not_set (environ (world st) "OPENWEATHER_API_KEY")) eqn:N.
  - rewrite (get_weather_info_unset st N). cbn [snd].
    repeat (split; [reflexivity|]).
    destruct (environ (world st) "OPENWEATHER_API_KEY") as [key|]; [|reflexivity].
    simpl in N. now rewrite N.
  - destruct (not_set_false _ N) as (key & Hkey & Hne).
    rewrite (get_weather_info_run rt st key Hkey Hne), Hkey.
    apply String.eqb_neq in Hne. rewrite Hne.
    destruct (server (world st) (network_calls st) _) as [|[data|]];
      [repeat split | | repeat split].
    destruct (valid_response data) as [[|]|e]; [| repeat split | repeat split].
    destruct (format_weather rt data _); repeat split.
Qed.

(** X2: the label is replaced all at once or not at all.  When the handler
    raises, the label keeps its text; when it returns, the key was set, the
    server answered with a JSON body, and the label shows either the failure
    sentence (the guard of line 97 said no) or the complete text the
    formatter returned for that body and the selected unit. *)
Theorem label_all_or_nothing (st : state) :
  let run := get_weather_info rt st in
  match fst run with
  | Raise _ => info_label (self (snd run)) = info_label (self st)
  | Return _ =>
      exists key data,
        environ (world st) "OPENWEATHER_API_KEY" = Some key
        /\ server (world st) (network_calls st)
             (request_url key (location_entry (self st)))
           = Response (Some data)
        /\ ((valid_response data = Return false
             /\ info_label (self (snd run)) = failure_text)
            \/ (valid_response data = Return true
                /\ format_weather rt data (selected_unit (self st))
                   = Return (info_label (self (snd run)))))
  end.
Proof.
  destruct (not_set (environ (world st) "OPENWEATHER_API_KEY")) eqn:N.
  - now rewrite (get_weather_info_unset st N).
  - destruct (not_set_false _ N) as (key & Hkey & Hne).
    rewrite (get_weather_info_run rt st key Hkey Hne).
    destruct (server (world st) (network_calls st) _) as [|[data|]] eqn:S;
      [reflexivity | | reflexivity].
    destruct (valid_response data) as [[|]|e] eqn:V; [| | reflexivity].
    + destruct (format_weather rt data _) eqn:F; [|reflexivity].
      exists key, data. repeat split; try assumption. right. now split.
    + exists key, data. repeat split; try assumption. left. now split.
Qed.

(** X3: a JSON body that is not an object never gets weather text on the
    screen.  With the key set, the handler either shows the failure sentence
    or raises [TypeError] (from the [in] test on a number or [true], or from
    the subscript on a list or a string that passed the guard) and leaves the
    label as it was. *)
Theorem non_object_body (st : state) (key : string) (data : pyval) :
  environ (world st) "OPENWEATHER_API_KEY" = Some key -> key <> "" ->
  server (world st) (network_calls st) (request_url key (location_entry (self st)))
  = Response (Some data) ->
  (forall d, data <> PDict d) ->
  let run := get_weather_info rt st in
  (fst run = Return tt /\ info_label (self (snd run)) = failure_text)
  \/ (fst run = Raise TypeError
      /\ info_label (self (snd run)) = info_label (self st)).
Proof.
  intros Hkey Hne Hsrv Hnd.
  rewrite (get_weather_info_run rt st key Hkey Hne), Hsrv.
  destruct data as [|b|z|x|s|l|d]; unfold valid_response; simpl.
  - left. now split.
  - destruct b; [right | left]; now split.
  - destruct (z =? 0); [left | right]; now split.
  - destruct (is_zero x); [left | right]; now split.
  - destruct (String.eqb s ""); simpl; [left; now split|].
    destruct (is_substring "name" s); [right | left]; now split.
  - destruct l as [|v l]; [left; now split|].
    destruct (existsb (is_str "name") (v :: l)); [right | left]; now split.
  - now destruct (Hnd d).
Qed.

(** X4: the handler reads the location field, the Celsius and Fahrenheit
    buttons, the key and the server's answer, and nothing else: two windows
    that agree on these give the same result and, when the handler returns,
    the same label, whatever the label showed before, whether the Kelvin
    button is checked, and whatever was sent earlier. *)
Theorem click_reads_only (st1 st2 : state) :
  location_entry (self st1) = location_entry (self st2) ->
  c_button (self st1) = c_button (self st2) ->
  f_button (self st1) = f_button (self st2) ->
  environ (world st1) "OPENWEATHER_API_KEY"
  = environ (world st2) "OPENWEATHER_API_KEY" ->
  (forall url, server (world st1) (network_calls st1) url
               = server (world st2) (network_calls st2) url) ->
  let run1 := get_weather_info rt st1 in
  let run2 := get_weather_info rt st2 in
  fst run1 = fst run2
  /\ (raised (fst run1) = false ->
      info_label (self (snd run1)) = info_label (self (snd run2))).
Proof.
  intros Hloc Hc Hf Henv Hsrv.
  destruct (not_set (environ (world st1) "OPENWEATHER_API_KEY")) eqn:N.
  - rewrite (get_weather_info_unset st1 N).
    rewrite Henv in N. rewrite (get_weather_info_unset st2 N).
    split; [reflexivity | discriminate].
  - destruct (not_set_false _ N) as (key & Hkey & Hne).
    rewrite (get_weather_info_run rt st1 key Hkey Hne).
    rewrite Henv in Hkey.
    rewrite (get_weather_info_run rt st2 key Hkey Hne).
    rewrite Hloc, Hsrv. unfold selected_unit. rewrite Hc, Hf.
    destruct (server (world st2) (network_calls st2) _) as [|[data|]];
      [split; [reflexivity | discriminate] | | split; [reflexivity | discriminate]].
    destruct (valid_response data) as [[|]|e];
      [| split; reflexivity | split; [reflexivity | discriminate]].
    destruct (format_weather rt data _);
      [split; reflexivity | split; [reflexivity | discriminate]].
Qed.

(** X5: with the key set and a response that holds the reading [r] (its
    humidity one that [str] will write), the handler returns and the label
    shows the template for [r] in the unit of the buttons: Celsius when the
    Celsius button is checked, otherwise Fahrenheit when that button is
    checked, otherwise Kelvin. *)
Theorem click_shows_reading
  (st : state) (key : string) (data : pyval) (r : WeatherReading) :
  environ (world st) "OPENWEATHER_API_KEY" = Some key -> key <> "" ->
  server (world st) (network_calls st) (request_url key (location_entry (self st)))
  = Response (Some data) ->
  reading_of data = Some r ->
  within_str_limit (max_str_digits rt) (humidityPercent r) = true ->
  fst (get_weather_info rt st) = Return tt
  /\ info_label (self (snd (get_weather_info rt st)))
     = expected_text rt r (unit_of_buttons (self st)).
Proof.
  intros Hkey Hne Hsrv Hr Hl.
  rewrite (get_weather_info_run rt st key Hkey Hne), Hsrv.
  rewrite (reading_valid data r Hr).
  assert (selected_unit (self st) = unit_code (unit_of_buttons (self st))) as ->.
  { unfold selected_unit, unit_of_buttons.
    destruct (c_button (self st)), (f_button (self st)); reflexivity. }
  rewrite (format_weather_reading rt data r _ Hr Hl).
  split; reflexivity.
Qed.

End Click.

(** ** The formatter beyond well-formed readings *)

Lemma lookup_agree_read (d1 d2 : list (string * pyval)) :
  (forall key, In key consumed_keys -> lookup key d1 = lookup key d2) ->
  read_locals (PDict d1) = read_locals (PDict d2).
Proof.
  intro H. unfold read_locals, getitem.
  rewrite (H "name"), (H "weather"), (H "main"), (H "wind");
    [reflexivity | | | |]; simpl; auto.
Qed.

Lemma raised_minus_format (v : pyval) :
  raised (minus_273_15 v) = raised (format_spec_2f v).
Proof.
  destruct v; simpl; try reflexivity.
  unfold minus_273_15, as_number. destruct (float_of_int z); reflexivity.
Qed.

Lemma minus_273_15_int (z : Z) :
  is_finite (of_Z z) = true ->
  minus_273_15 (PInt z) = minus_273_15 (PFloat (of_Z z)).
Proof.
  intro H. unfold minus_273_15, as_number, float_of_int. now rewrite H.
Qed.

Lemma format_spec_2f_int (z : Z) :
  is_finite (of_Z z) = true ->
  format_spec_2f (PInt z) = format_spec_2f (PFloat (of_Z z)).
Proof.
  intro H. unfold format_spec_2f, as_number, float_of_int. now rewrite H.
Qed.

Section FormatterEdges.

Variable rt : Runtime.

Lemma format_weather_stages (data : pyval) (unit : string) :
  format_weather rt data unit
  = (let* l := read_locals data in convert_and_render rt l unit).
Proof. reflexivity. Qed.

(** Whether lines 139-164 raise is decided by the eight values alone, the
    same way under every unit. *)
Lemma convert_and_render_raised (l : locals) (unit : string) :
  raised (convert_and_render rt l unit)
  = raised (format_spec_2f (temperature l))
    || raised (format_spec_2f (feels_like l))
    || raised (format_spec_2f (temp_min l))
    || raised (format_spec_2f (temp_max l))
    || raised (py_str rt (location l))
    || raised (py_str rt (weather_description l))
    || raised (py_str rt (humidity l))
    || raised (py_str rt (wind_speed l)).
Proof.
  unfold convert_and_render, convert, render.
  destruct (String.eqb unit "C"); [|destruct (String.eqb unit "F")].
  1, 2: rewrite <- !raised_minus_format;
    destruct (minus_273_15 (temperature l)); [|reflexivity];
    destruct (minus_273_15 (feels_like l)); [|reflexivity];
    destruct (minus_273_15 (temp_min l)); [|reflexivity];
    destruct (minus_273_15 (temp_max l)); [|reflexivity];
    cbn [obind fst snd set_temperatures location weather_description
         temperature feels_like temp_min temp_max humidity wind_speed
         format_spec_2f as_number];
    destruct (py_str rt (location l)); [|reflexivity];
    destruct (py_str rt (weather_description l)); [|reflexivity];
    destruct (py_str rt (humidity l)); [|reflexivity];
    destruct (py_str rt (wind_speed l)); reflexivity.
  cbn [obind fst snd].
  destruct (format_spec_2f (temperature l));
    destruct (format_spec_2f (feels_like l));
    destruct (format_spec_2f (temp_min l));
    destruct (format_spec_2f (temp_max l));
    destruct (py_str rt (location l));
    destruct (py_str rt (weather_description l));
    destruct (py_str rt (humidity l));
    destruct (py_str rt (wind_speed l)); reflexivity.
Qed.

(** X6: the unit argument is compared with ["C"] and ["F"] only; any other
    string, whatever its case or spelling, formats as Kelvin. *)
Theorem other_unit_is_kelvin (data : pyval) (unit : string) :
  unit <> "C" -> unit <> "F" ->
  format_weather rt data unit = format_weather rt data "K".
Proof.
  intros HC HF. unfold format_weather, convert.
  apply String.eqb_neq in HC, HF. now rewrite HC, HF.
Qed.

(** X7: whether the formatter raises does not depend on the unit: a response
    that can be shown under one unit can be shown under every other, and one
    that fails fails under all of them (possibly with another exception). *)
Theorem raising_independent_of_unit (data : pyval) (unit1 unit2 : string) :
  raised (format_weather rt data unit1)
  = raised (format_weather rt data unit2).
Proof.
  rewrite !format_weather_stages.
  destruct (read_locals data) as [l|e]; [|reflexivity].
  cbn [obind]. now rewrite !convert_and_render_raised.
Qed.

(** X8: whole-number temperatures, which JSON parses to [int], are rendered
    under every unit exactly as the floats of the same value, provided each
    is within the range of a float. *)
Theorem whole_number_temperatures
  (l : locals) (zt zfl zmn zmx : Z) (unit : string) :
  is_finite (of_Z zt) = true -> is_finite (of_Z zfl) = true ->
  is_finite (of_Z zmn) = true -> is_finite (of_Z zmx) = true ->
  convert_and_render rt
    (with_temperatures l (PInt zt) (PInt zfl) (PInt zmn) (PInt zmx)) unit
  = convert_and_render rt
      (with_temperatures l (PFloat (of_Z zt)) (PFloat (of_Z zfl))
         (PFloat (of_Z zmn)) (PFloat (of_Z zmx))) unit.
Proof.
  intros Ht Hfl Hmn Hmx.
  unfold convert_and_render, convert, render.
  cbv [with_temperatures temperature feels_like temp_min temp_max fst snd].
  rewrite !(minus_273_15_int _ Ht), !(minus_273_15_int _ Hfl),
    !(minus_273_15_int _ Hmn), !(minus_273_15_int _ Hmx).
  destruct (String.eqb unit "C"); [reflexivity|].
  destruct (String.eqb unit "F"); [reflexivity|].
  cbv [obind fst snd location weather_description temperature feels_like
       temp_min temp_max humidity wind_speed].
  now rewrite (format_spec_2f_int _ Ht), (format_spec_2f_int _ Hfl),
    (format_spec_2f_int _ Hmn), (format_spec_2f_int _ Hmx).
Qed.

(** X9: a temperature sent as a JSON string is never shown.  Under Celsius
    and Fahrenheit the subtraction raises [TypeError] before anything is
    formatted; under any other unit the [".2f"] format raises [ValueError],
    once [str] has written the name and the description. *)
Theorem string_temperature (l : locals) (s unit : string) :
  temperature l = PStr s ->
  convert_and_render rt l "C" = Raise TypeError
  /\ convert_and_render rt l "F" = Raise TypeError
  /\ (unit <> "C" -> unit <> "F" ->
      raised (py_str rt (location l)) = false ->
      raised (py_str rt (weather_description l)) = false ->
      convert_and_render rt l unit = Raise ValueError).
Proof.
  intro H. unfold convert_and_render, convert, render.
  cbn [String.eqb Ascii.eqb Bool.eqb]. rewrite H. cbn [minus_273_15 as_number obind].
  split; [reflexivity|]. split; [reflexivity|].
  intros HC HF Hloc Hdesc. apply String.eqb_neq in HC, HF. rewrite HC, HF.
  cbn [obind fst snd]. rewrite H.
  destruct (py_str rt (location l)); [|discriminate].
  destruct (py_str rt (weather_description l)); [|discriminate].
  reflexivity.
Qed.

(** X10: of the response object the guard and the formatter read the keys
    [name], [weather], [main] and [wind] only: two objects with the same
    values under these four keys pass the guard alike and give the same text
    or the same exception, whatever other keys they hold and in whatever
    order. *)
Theorem only_four_keys_read (d1 d2 : list (string * pyval)) (unit : string) :
  (forall key, In key consumed_keys -> lookup key d1 = lookup key d2) ->
  valid_response (PDict d1) = valid_response (PDict d2)
  /\ format_weather rt (PDict d1) unit
     = format_weather rt (PDict d2) unit.
Proof.
  intro H. split.
  - assert (lookup "name" d1 = lookup "name" d2) as Hn
        by (apply H; simpl; auto).
    unfold valid_response, contains.
    destruct d1 as [|p1 d1], d2 as [|p2 d2]; cbn [truthy]; try reflexivity.
    + rewrite <- Hn. reflexivity.
    + rewrite Hn. reflexivity.
    + now rewrite Hn.
  - rewrite !format_weather_stages. now rewrite (lookup_agree_read d1 d2 H).
Qed.

End FormatterEdges.

(** ** Clicks in sequence *)

Lemma network_calls_logged (url text : string) (st : state) :
  network_calls (with_label text (logged url st)) = S (network_calls st).
Proof.
  unfold network_calls, with_label, logged. cbn [world sent].
  rewrite length_app. simpl. apply Nat.add_1_r.
Qed.

Section Clicks.

Variable rt : Runtime.

(** X11: a failed attempt does not get in the way of the next one.  When the
    server has nothing under [name] for the first request and a reading [r]
    (its humidity one that [str] will write) for the second, the first click shows the failure sentence, the second
    click replaces it with the template for [r] in the unit of the buttons,
    and two requests have been sent. *)
Theorem retry_after_failure
  (st : state) (key : string) (bad data : pyval) (r : WeatherReading) :
  environ (world st) "OPENWEATHER_API_KEY" = Some key -> key <> "" ->
  let url := request_url key (location_entry (self st)) in
  server (world st) (network_calls st) url = Response (Some bad) ->
  lacks_name bad = true ->
  server (world st) (S (network_calls st)) url = Response (Some data) ->
  reading_of data = Some r ->
  within_str_limit (max_str_digits rt) (humidityPercent r) = true ->
  let st1 := snd (get_weather_info rt st) in
  let st2 := snd (get_weather_info rt st1) in
  info_label (self st1) = failure_text
  /\ fst (get_weather_info rt st1) = Return tt
  /\ info_label (self st2) = expected_text rt r (unit_of_buttons (self st))
  /\ network_calls st2 = (network_calls st + 2)%nat.
Proof.
  intros Hkey Hne url Hbad Hlacks Hgood Hr Hl st1 st2.
  assert (st1 = with_label failure_text (logged url st)) as E1.
  { unfold st1. rewrite (get_weather_info_run rt st key Hkey Hne).
    fold url. now rewrite Hbad, (lacks_name_invalid bad Hlacks). }
  assert (selected_unit (self st1) = unit_code (unit_of_buttons (self st))) as Hu.
  { rewrite E1. unfold selected_unit, unit_of_buttons. cbn.
    destruct (c_button (self st)), (f_button (self st)); reflexivity. }
  assert (get_weather_info rt st1
          = (Return tt,
             with_label (expected_text rt r (unit_of_buttons (self st)))
               (logged url st1))) as E2.
  { rewrite (get_weather_info_run rt st1 key);
      [| rewrite E1; exact Hkey | exact Hne].
    rewrite Hu.
    replace (network_calls st1) with (S (network_calls st))
      by (rewrite E1; symmetry; apply network_calls_logged).
    replace (location_entry (self st1)) with (location_entry (self st))
      by (now rewrite E1).
    replace (server (world st1)) with (server (world st)) by (now rewrite E1).
    fold url. rewrite Hgood, (reading_valid data r Hr).
    now rewrite (format_weather_reading rt data r _ Hr Hl). }
  split; [now rewrite E1|]. split; [now rewrite E2|].
  unfold st2. rewrite E2. cbn [snd]. split; [reflexivity|].
  rewrite network_calls_logged, E1, network_calls_logged.
  rewrite <- Nat.add_1_r, <- (Nat.add_1_r (network_calls st)), <- Nat.add_assoc.
  reflexivity.
Qed.

(** X13: the first click after start-up, with nothing typed and no button
    checked, is not held back: with the key set, one request goes out with an
    empty [q=], and a reading that comes back is shown in Kelvin. *)
Theorem first_click_after_startup (w : World) (key : string) :
  environ w "OPENWEATHER_API_KEY" = Some key -> key <> "" ->
  let st := {| self := init_ui; world := w |} in
  let url := "https://api.openweathermap.org/data/2.5/weather?q=&appid=" ++ key in
  sent (world (snd (get_weather_info rt st)))
  = (sent w ++ [ {| req_verb := "GET"; req_url := url;
                    req_headers := []; req_body := None |} ])%list
  /\ forall data r,
       server w (List.length (sent w)) url = Response (Some data) ->
       reading_of data = Some r ->
       within_str_limit (max_str_digits rt) (humidityPercent r) = true ->
       info_label (self (snd (get_weather_info rt st)))
       = expected_text rt r Kelvin.
Proof.
  intros Hkey Hne st url.
  rewrite (get_weather_info_run rt st key Hkey Hne).
  change (request_url key (location_entry (self st))) with url.
  change (network_calls st) with (List.length (sent w)).
  change (server (world st)) with (server w).
  split.
  - destruct (server w _ url) as [|[data|]]; try reflexivity.
    destruct (valid_response data) as [[|]|e]; try reflexivity.
    destruct (format_weather rt data _); reflexivity.
  - intros data r Hsrv Hr Hl. rewrite Hsrv, (reading_valid data r Hr).
    change (selected_unit (self st)) with (unit_code Kelvin).
    now rewrite (format_weather_reading rt data r Kelvin Hr Hl).
Qed.

End Clicks.

(** ** Two decimals, correctly rounded *)

Lemma div_half_even_nearest (n d : Z) :
  0 <= n -> 0 < d ->
  2 * Z.abs (n - div_half_even n d * d) <= d
  /\ (2 * Z.abs (n - div_half_even n d * d) = d -> Z.even (div_half_even n d) = true).
Proof.
  intros Hn Hd. unfold div_half_even. cbv zeta.
  pose proof (Z.div_mod n d ltac:(lia)) as E.
  pose proof (Z.mod_pos_bound n d Hd) as B.
  set (q := n / d) in *. set (r := n mod d) in *.
  destruct (Z.compare_spec (2 * r) d) as [C|C|C].
  - destruct (Z.even q) eqn:Ev.
    + split; [lia | trivial].
    + split; [lia|]. intros _. rewrite Z.even_add, Ev. reflexivity.
  - split; lia.
  - split; lia.
Qed.

(** X12: the number [".2f"] prints for a finite non-zero float is the
    hundredth nearest to its exact value, and the even one of the two when
    the value lies half-way: with the value [m * 2^e] and [h] the hundredths
    printed, [|100 * m * 2^e - h| <= 1/2], stated over the integers. *)
Theorem format_2f_nearest_hundredth (s : bool) (m : positive) (e : Z) :
  let h := hundredths m e in
  let scale := 2 ^ Z.max (- e) 0 in
  let exact := Zpos m * 2 ^ Z.max e 0 * 100 in
  format_2f (S754_finite s m e)
  = sign_prefix s ++ str_nat (Z.to_N (h / 100)) ++ "."
      ++ String (digit_char ((h / 10) mod 10)) (String (digit_char (h mod 10)) "")
  /\ 0 <= h
  /\ 2 * Z.abs (exact - h * scale) <= scale
  /\ (2 * Z.abs (exact - h * scale) = scale -> Z.even h = true).
Proof.
  intros h scale exact. split; [reflexivity|]. split; [apply hundredths_nonneg|].
  unfold h, scale, exact, hundredths. destruct e as [|p|p].
  - change (Z.max (- 0) 0) with 0. change (Z.max 0 0) with 0.
    rewrite Z.pow_0_r.
    replace (Z.pos m * 1 * 100 - Z.pos m * 100 * 1 * 1) with 0 by ring.
    change (Z.abs 0) with 0. split; lia.
  - rewrite Z.max_l, Z.max_r by lia. rewrite Z.pow_0_r.
    replace (Z.pos m * 2 ^ Z.pos p * 100 - Z.pos m * 100 * 2 ^ Z.pos p * 1)
      with 0 by ring.
    change (Z.abs 0) with 0. split; lia.
  - rewrite Z.max_r, Z.max_l by lia. rewrite Z.pow_0_r.
    replace (- Z.neg p) with (Z.pos p) by reflexivity.
    replace (Z.pos m * 1 * 100) with (Z.pos m * 100) by ring.
    apply div_half_even_nearest; [lia | apply Z.pow_pos_nonneg; lia].
Qed.


(** ** Runs of the further properties *)

Lemma non_object_body_witness :
  environ (world st_number) "OPENWEATHER_API_KEY" = Some "KEY"
  /\ "KEY" <> ""
  /\ server (world st_number) (network_calls st_number)
       (request_url "KEY" (location_entry (self st_number)))
     = Response (Some (PInt 5))
  /\ (forall d, PInt 5 <> PDict d)
  /\ ((fst (get_weather_info sample_runtime st_number) = Return tt
       /\ info_label (self (snd (get_weather_info sample_runtime st_number)))
          = failure_text)
      \/ (fst (get_weather_info sample_runtime st_number) = Raise TypeError
          /\ info_label (self (snd (get_weather_info sample_runtime st_number)))
             = info_label (self st_number))).
Proof.
  split; [reflexivity|]. split; [discriminate|]. split; [reflexivity|].
  split; [discriminate|].
  apply (non_object_body sample_runtime st_number "KEY" (PInt 5));
    solve [reflexivity | discriminate].
Defined.

Lemma click_reads_only_witness :
  location_entry (self st_london_celsius) = location_entry (self st_london_stale)
  /\ c_button (self st_london_celsius) = c_button (self st_london_stale)
  /\ f_button (self st_london_celsius) = f_button (self st_london_stale)
  /\ environ (world st_london_celsius) "OPENWEATHER_API_KEY"
     = environ (world st_london_stale) "OPENWEATHER_API_KEY"
  /\ (forall url,
         server (world st_london_celsius) (network_calls st_london_celsius) url
         = server (world st_london_stale) (network_calls st_london_stale) url)
  /\ fst (get_weather_info sample_runtime st_london_celsius)
     = fst (get_weather_info sample_runtime st_london_stale)
  /\ (raised (fst (get_weather_info sample_runtime st_london_celsius)) = false ->
      info_label (self (snd (get_weather_info sample_runtime st_london_celsius)))
      = info_label (self (snd (get_weather_info sample_runtime st_london_stale)))).
Proof.
  do 4 (split; [reflexivity|]). split; [intro url; reflexivity|].
  apply (click_reads_only sample_runtime st_london_celsius st_london_stale);
    solve [reflexivity | intro url; reflexivity].
Defined.

Lemma click_shows_reading_witness :
  environ (world st_london_celsius) "OPENWEATHER_API_KEY" = Some "KEY"
  /\ "KEY" <> ""
  /\ server (world st_london_celsius) (network_calls st_london_celsius)
       (request_url "KEY" (location_entry (self st_london_celsius)))
     = Response (Some london)
  /\ reading_of london = Some london_reading
  /\ within_str_limit (max_str_digits sample_runtime) 60 = true
  /\ fst (get_weather_info sample_runtime st_london_celsius) = Return tt
  /\ info_label (self (snd (get_weather_info sample_runtime st_london_celsius)))
     = join_lines
         (template_lines "London" "clear sky" "6.85" "5.85" "4.85" "8.85"
            "60" "3.5" "°C").
Proof.
  split; [reflexivity|]. split; [discriminate|]. do 3 (split; [reflexivity|]).
  apply (click_shows_reading sample_runtime st_london_celsius "KEY" london
           london_reading);
    solve [reflexivity | discriminate].
Defined.

Lemma other_unit_is_kelvin_witness :
  "c" <> "C" /\ "c" <> "F"
  /\ format_weather sample_runtime london "c"
     = format_weather sample_runtime london "K".
Proof.
  split; [discriminate|]. split; [discriminate|].
  apply (other_unit_is_kelvin sample_runtime london "c"); discriminate.
Defined.

Lemma whole_number_temperatures_witness :
  is_finite (of_Z 280) = true /\ is_finite (of_Z 279) = true
  /\ is_finite (of_Z 278) = true /\ is_finite (of_Z 282) = true
  /\ convert_and_render sample_runtime london_whole "F"
     = convert_and_render sample_runtime
         (with_temperatures (locals_of_reading london_reading)
            (PFloat (of_Z 280)) (PFloat (of_Z 279))
            (PFloat (of_Z 278)) (PFloat (of_Z 282))) "F".
Proof.
  do 4 (split; [reflexivity|]).
  apply (whole_number_temperatures sample_runtime
           (locals_of_reading london_reading) 280 279 278 282 "F");
    reflexivity.
Defined.

Lemma string_temperature_witness :
  temperature london_quoted = PStr "280.0"
  /\ convert_and_render sample_runtime london_quoted "C" = Raise TypeError
  /\ convert_and_render sample_runtime london_quoted "F" = Raise TypeError
  /\ ("K" <> "C" -> "K" <> "F" ->
      raised (py_str sample_runtime (location london_quoted)) = false ->
      raised (py_str sample_runtime (weather_description london_quoted)) = false ->
      convert_and_render sample_runtime london_quoted "K" = Raise ValueError).
Proof.
  split; [reflexivity|].
  apply (string_temperature sample_runtime london_quoted "280.0" "K"). reflexivity.
Defined.

Lemma only_four_keys_read_witness :
  (forall key, In key consumed_keys ->
     lookup key
       [("name", PStr "London");
        ("weather", PList [PDict [("description", PStr "clear sky")]]);
        ("main", PDict [("temp", PFloat (of_Z 280));
                        ("feels_like", PFloat (of_Z 279));
                        ("temp_min", PFloat (of_Z 278));
                        ("temp_max", PFloat (of_Z 282));
                        ("humidity", PInt 60)]);
        ("wind", PDict [("speed", PFloat (div (of_Z 35) (of_Z 10)))])]
     = lookup key
         [("coord", PDict [("lon", PFloat (of_Z 0)); ("lat", PFloat (of_Z 51))]);
          ("wind", PDict [("speed", PFloat (div (of_Z 35) (of_Z 10)))]);
          ("cod", PInt 200);
          ("main", PDict [("temp", PFloat (of_Z 280));
                          ("feels_like", PFloat (of_Z 279));
                          ("temp_min", PFloat (of_Z 278));
                          ("temp_max", PFloat (of_Z 282));
                          ("humidity", PInt 60)]);
          ("weather", PList [PDict [("description", PStr "clear sky")]]);
          ("id", PInt 2643743);
          ("name", PStr "London")])
  /\ valid_response london = valid_response london_verbose
  /\ format_weather sample_runtime london "C"
     = format_weather sample_runtime london_verbose "C".
Proof.
  assert (forall key, In key consumed_keys ->
            lookup key
              [("name", PStr "London");
               ("weather", PList [PDict [("description", PStr "clear sky")]]);
               ("main", PDict [("temp", PFloat (of_Z 280));
                               ("feels_like", PFloat (of_Z 279));
                               ("temp_min", PFloat (of_Z 278));
                               ("temp_max", PFloat (of_Z 282));
                               ("humidity", PInt 60)]);
               ("wind", PDict [("speed", PFloat (div (of_Z 35) (of_Z 10)))])]
            = lookup key
                [("coord", PDict [("lon", PFloat (of_Z 0)); ("lat", PFloat (of_Z 51))]);
                 ("wind", PDict [("speed", PFloat (div (of_Z 35) (of_Z 10)))]);
                 ("cod", PInt 200);
                 ("main", PDict [("temp", PFloat (of_Z 280));
                                 ("feels_like", PFloat (of_Z 279));
                                 ("temp_min", PFloat (of_Z 278));
                                 ("temp_max", PFloat (of_Z 282));
                                 ("humidity", PInt 60)]);
                 ("weather", PList [PDict [("description", PStr "clear sky")]]);
                 ("id", PInt 2643743);
                 ("name", PStr "London")]) as H.
  { intros key [<-|[<-|[<-|[<-|[]]]]]; reflexivity. }
  split; [exact H|].
  exact (only_four_keys_read sample_runtime _ _ "C" H).
Defined.

Lemma retry_after_failure_witness :
  environ (world st_second_time_lucky) "OPENWEATHER_API_KEY" = Some "KEY"
  /\ "KEY" <> ""
  /\ server (world st_second_time_lucky) (network_calls st_second_time_lucky)
       (request_url "KEY" (location_entry (self st_second_time_lucky)))
     = Response (Some not_found)
  /\ lacks_name not_found = true
  /\ server (world st_second_time_lucky) (S (network_calls st_second_time_lucky))
       (request_url "KEY" (location_entry (self st_second_time_lucky)))
     = Response (Some london)
  /\ reading_of london = Some london_reading
  /\ within_str_limit (max_str_digits sample_runtime) 60 = true
  /\ info_label
       (self (snd (get_weather_info sample_runtime st_second_time_lucky)))
     = failure_text
  /\ fst (get_weather_info sample_runtime
            (snd (get_weather_info sample_runtime st_second_time_lucky)))
     = Return tt
  /\ info_label
       (self (snd (get_weather_info sample_runtime
                     (snd (get_weather_info sample_runtime st_second_time_lucky)))))
     = join_lines
         (template_lines "London" "clear sky" "44.33" "42.53" "40.73" "47.93"
            "60" "3.5" "°F")
  /\ network_calls
       (snd (get_weather_info sample_runtime
               (snd (get_weather_info sample_runtime st_second_time_lucky))))
     = 2%nat.
Proof.
  split; [reflexivity|]. split; [discriminate|]. do 5 (split; [reflexivity|]).
  apply (retry_after_failure sample_runtime st_second_time_lucky "KEY" not_found
           london london_reading);
    solve [reflexivity | discriminate].
Defined.

Lemma first_click_after_startup_witness :
  environ world_london "OPENWEATHER_API_KEY" = Some "KEY"
  /\ "KEY" <> ""
  /\ sent (world (snd (get_weather_info sample_runtime
                         {| self := init_ui; world := world_london |})))
     = [ {| req_verb := "GET";
            req_url := "https://api.openweathermap.org/data/2.5/weather?q=&appid=KEY";
            req_headers := [];
            req_body := None |} ]
  /\ forall data r,
       server world_london (List.length (sent world_london))
         "https://api.openweathermap.org/data/2.5/weather?q=&appid=KEY"
       = Response (Some data) ->
       reading_of data = Some r ->
       within_str_limit (max_str_digits sample_runtime) (humidityPercent r) = true ->
       info_label (self (snd (get_weather_info sample_runtime
                                {| self := init_ui; world := world_london |})))
       = expected_text sample_runtime r Kelvin.
Proof.
  split; [reflexivity|]. split; [discriminate|].
  apply (first_click_after_startup sample_runtime world_london "KEY");
    solve [reflexivity | discriminate].
Defined.
